(** * ai-trip-planner: the prompt builder, the plan generator and the session
    controller of [app.py], embedded in Rocq.

    The file follows the layout of [app.py]:
    - [PyStr]    : the string primitives the templates use ([str(int)],
                   [", ".join], substring containment);
    - [PyDate]   : [datetime.date] as the program uses it (comparison,
                   subtraction, [strftime('%B %d, %Y')]);
    - [Py]       : results and raised exceptions, [try]/[except Exception],
                   truth values;
    - [Crewai]   : the configuration objects handed to the agent library;
    - [App]      : [create_agents], [create_tasks], [generate_trip_plan],
                   the session state and the two button handlers;
    - [Scenario] : concrete requests and collaborators.
    The facts about each part follow the definitions. *)

From Stdlib Require Import ZArith List String Ascii Bool Lia.
From Stdlib Require Import DecimalString.
Import ListNotations.

Local Open Scope string_scope.
Local Open Scope Z_scope.

(* ================================================================== *)
(** ** Python strings                                                  *)
(* ================================================================== *)

Module PyStr.

(** [str(n)] for a Python [int]: decimal digits, a leading [-] when
    negative, ["0"] for zero. *)
Definition str_int (n : Z) : string :=
  NilZero.string_of_int (Z.to_int n).

(** [sep.join(xs)] *)
Fixpoint join (sep : string) (xs : list string) : string :=
  match xs with
  | [] => ""
  | [x] => x
  | x :: rest => x ++ sep ++ join sep rest
  end.

(** [needle in hay], as a proposition ... *)
Definition Contains (hay needle : string) : Prop :=
  exists pre post, hay = pre ++ needle ++ post.

(** ... and as the scan Python performs. *)
Fixpoint contains (hay needle : string) : bool :=
  if String.prefix needle hay then true
  else match hay with
       | EmptyString => false
       | String _ hay' => contains hay' needle
       end.

End PyStr.

(* ================================================================== *)
(** ** [datetime.date]                                                 *)
(* ================================================================== *)

Module PyDate.

Import PyStr.

Record date := mkDate { year : Z; month : Z; day : Z }.

Definition MINYEAR : Z := 1.
Definition MAXYEAR : Z := 9999.

(** [_is_leap]: year -> 1 if leap year, else 0. *)
Definition is_leap (y : Z) : bool :=
  (y mod 4 =? 0) && (negb (y mod 100 =? 0) || (y mod 400 =? 0)).

(** The extra day of a leap year. *)
Definition leap_day (y : Z) : Z := if is_leap y then 1 else 0.

(** [_days_before_year]: number of days before January 1st of year. *)
Definition days_before_year (y : Z) : Z :=
  let y' := y - 1 in
  y' * 365 + y' / 4 - y' / 100 + y' / 400.

(** [_DAYS_IN_MONTH] and [_days_in_month]. *)
Definition DAYS_IN_MONTH (m : Z) : Z :=
  match m with
  | 1 => 31 | 2 => 28 | 3 => 31 | 4 => 30 | 5 => 31 | 6 => 30
  | 7 => 31 | 8 => 31 | 9 => 30 | 10 => 31 | 11 => 30 | 12 => 31
  | _ => 0
  end.

Definition days_in_month (y m : Z) : Z :=
  if (m =? 2) && is_leap y then 29 else DAYS_IN_MONTH m.

(** [_DAYS_BEFORE_MONTH] and [_days_before_month]. *)
Definition DAYS_BEFORE_MONTH (m : Z) : Z :=
  match m with
  | 1 => 0 | 2 => 31 | 3 => 59 | 4 => 90 | 5 => 120 | 6 => 151
  | 7 => 181 | 8 => 212 | 9 => 243 | 10 => 273 | 11 => 304 | 12 => 334
  | _ => 0
  end.

Definition days_before_month (y m : Z) : Z :=
  DAYS_BEFORE_MONTH m + (if (2 <? m) && is_leap y then 1 else 0).

(** The values the [date] constructor accepts ([_check_date_fields]). *)
Definition valid (d : date) : Prop :=
  MINYEAR <= year d <= MAXYEAR /\
  1 <= month d <= 12 /\
  1 <= day d <= days_in_month (year d) (month d).

Definition validb (d : date) : bool :=
  (MINYEAR <=? year d) && (year d <=? MAXYEAR) &&
  (1 <=? month d) && (month d <=? 12) &&
  (1 <=? day d) && (day d <=? days_in_month (year d) (month d)).

(** [date.toordinal()]: the proleptic Gregorian ordinal, 0001-01-01 is 1. *)
Definition toordinal (d : date) : Z :=
  days_before_year (year d) + days_before_month (year d) (month d) + day d.

(** Comparison of dates is comparison of the triples (year, month, day). *)
Definition date_lt (a b : date) : Prop :=
  year a < year b \/
  (year a = year b /\ (month a < month b \/
                       (month a = month b /\ day a < day b))).

Definition date_le (a b : date) : Prop := date_lt a b \/ a = b.

(** [timedelta], restricted to what a difference of dates can hold. *)
Record timedelta := mkDelta { days : Z }.

(** [date.__sub__] on two dates. *)
Definition sub (a b : date) : timedelta :=
  mkDelta (toordinal a - toordinal b).

(** The day after [d] in the calendar. *)
Definition next_day (d : date) : date :=
  if day d <? days_in_month (year d) (month d)
  then mkDate (year d) (month d) (day d + 1)
  else if month d <? 12
       then mkDate (year d) (month d + 1) 1
       else mkDate (year d + 1) 1 1.

(** Month names of [%B] in the C locale. *)
Definition month_name (m : Z) : string :=
  match m with
  | 1 => "January" | 2 => "February" | 3 => "March" | 4 => "April"
  | 5 => "May" | 6 => "June" | 7 => "July" | 8 => "August"
  | 9 => "September" | 10 => "October" | 11 => "November"
  | 12 => "December" | _ => ""
  end.

(** Left padding with zeros up to [width] characters ([%d], [%Y]). *)
Fixpoint zeros (n : nat) : string :=
  match n with
  | O => ""
  | S n' => "0" ++ zeros n'
  end.

Definition zero_pad (width : nat) (n : Z) : string :=
  let s := str_int n in
  zeros (width - String.length s) ++ s.

(** [d.strftime('%B %d, %Y')]: full month name, day of the month as a
    zero-padded two digit number, year with century (0001 .. 9999). *)
Definition strftime_B_d_Y (d : date) : string :=
  month_name (month d) ++ " " ++ zero_pad 2 (day d) ++ ", " ++
  zero_pad 4 (year d).

End PyDate.

(* ================================================================== *)
(** ** Python control flow: results, exceptions, [try]/[except]        *)
(* ================================================================== *)

Module Py.

(** A raised object.  [except Exception] tests the class of the object, so
    the model records whether it is an instance of [Exception]
    ([ValueError], [RuntimeError], an API error of the agent library, ...)
    or only of [BaseException] ([KeyboardInterrupt], [SystemExit],
    [GeneratorExit]); [str_exc] is what [str(e)] returns. *)
Record exc := mkExc { is_Exception : bool; str_exc : string }.

Inductive outcome (A : Type) : Type :=
| Return (a : A)
| Raise (e : exc).

Arguments Return {A} a.
Arguments Raise {A} e.

Definition bind {A B} (m : outcome A) (k : A -> outcome B) : outcome B :=
  match m with
  | Return a => k a
  | Raise e => Raise e
  end.

(** [try: body / except Exception as e: handler(e)] *)
Definition try_except_Exception {A} (body : outcome A)
    (handler : exc -> outcome A) : outcome A :=
  match body with
  | Return a => Return a
  | Raise e => if is_Exception e then handler e else Raise e
  end.

(** Truth value of a [str] and of a [list]: empty is false. *)
Definition truthy (s : string) : bool :=
  match s with
  | EmptyString => false
  | String _ _ => true
  end.

Definition truthy_list {A} (l : list A) : bool :=
  match l with
  | [] => false
  | _ :: _ => true
  end.

(** [a or b] on strings. *)
Definition or_str (a b : string) : string :=
  if truthy a then a else b.

End Py.

Notation "x <- m ;; k" := (Py.bind m (fun x => k))
  (at level 61, m at next level, right associativity).

(* ================================================================== *)
(** ** The objects of the agent library                                *)
(* ================================================================== *)

Module Crewai.

Import Py.

(** [Agent], [Task] and [Crew] are configuration objects: their
    constructors are taken to store the keyword arguments they are given.
    What runs a model is behind [Collaborator] below. *)

(** [OpenAI(model=..., api_key=...)] *)
Record LLM := mkLLM { model : string; api_key : string }.

(** [Agent(role=..., goal=..., backstory=..., verbose=...,
    allow_delegation=..., llm=...)] *)
Record Agent := mkAgent {
  role : string;
  goal : string;
  backstory : string;
  verbose : bool;
  allow_delegation : bool;
  llm : LLM
}.

(** [Task(description=..., agent=..., expected_output=..., context=...)];
    [context] is [None] when the keyword is not given. *)
#[warnings="-register-all"]
Inductive Task : Type := mkTask {
  description : string;
  agent : Agent;
  expected_output : string;
  context : option (list Task)
}.

(** [Crew(agents=..., tasks=..., verbose=...)] *)
Record Crew := mkCrew {
  agents : list Agent;
  tasks : list Task;
  crew_verbose : bool
}.

(** What the program asks of the library and of the hosted model behind
    it: building the model handle, and running a crew.  Both may raise.
    [kickoff] stands for [str(crew.kickoff())], the text of the result. *)
Record Collaborator := mkCollaborator {
  OpenAI : string -> string -> outcome LLM;
  kickoff : Crew -> outcome string
}.

End Crewai.

(* ================================================================== *)
(** ** [app.py]                                                        *)
(* ================================================================== *)

Module App.

Import PyStr PyDate Py Crewai.

(** The line break of the triple-quoted templates. *)
Definition nl : string := String (ascii_of_nat 10) EmptyString.

(** *** Create CrewAI Agents (OpenAI) *)

Definition create_agents (c : Collaborator) (openai_api_key : string)
  : outcome (Agent * Agent) :=
  openai_llm <- OpenAI c "gpt-4o-mini" openai_api_key ;;
  let city_expert := mkAgent
    "City Information Expert"
    "Provide comprehensive information about cities including attractions, culture, and local tips"
    ("You are an experienced travel researcher with deep knowledge of cities worldwide. " ++
     "You excel at finding the most relevant and interesting information about destinations.")
    true false openai_llm in
  let itinerary_planner := mkAgent
    "Itinerary Planner"
    "Create detailed, personalized day-by-day travel itineraries based on user preferences"
    ("You are a professional travel planner with years of experience creating customized trips. " ++
     "You know how to balance activities, rest time, and local experiences perfectly.")
    true false openai_llm in
  Return (city_expert, itinerary_planner).

(** *** Create Tasks *)

(** [duration = (end_date - start_date).days + 1] *)
Definition duration (start_date end_date : date) : Z :=
  days (sub end_date start_date) + 1.

(** [interests_str = ", ".join(interests)] *)
Definition interests_str (interests : list string) : string :=
  join ", " interests.

(** The f-string of the research task. *)
Definition research_description
    (destination : string) (interests : list string)
    (budget travel_style : string) : string :=
  "Research " ++ destination ++
    " and provide comprehensive information including:" ++ nl ++
  "- Top 5 must-visit attractions related to: " ++
    interests_str interests ++ nl ++
  "- Best restaurants and local cuisine specialties" ++ nl ++
  "- Cultural highlights and local customs" ++ nl ++
  "- Transportation options within the city" ++ nl ++
  "- Weather considerations" ++ nl ++
  "- Important safety tips" ++ nl ++
  nl ++
  "Focus on " ++ budget ++ " budget options and " ++ travel_style ++
    " travel style." ++ nl ++
  "Keep the response concise and practical.".

(** The fixed tail of the itinerary template. *)
Definition itinerary_instructions : string :=
  "For each day provide:" ++ nl ++
  "- Morning (9 AM - 12 PM): Activities with specific locations" ++ nl ++
  "- Afternoon (12 PM - 6 PM): Activities with specific locations" ++ nl ++
  "- Evening (6 PM - 10 PM): Activities and dining suggestions" ++ nl ++
  "- Estimated daily cost range" ++ nl ++
  "- Transportation tips between locations" ++ nl ++
  nl ++
  "Format it clearly with day numbers and time blocks." ++ nl ++
  "Make it practical, enjoyable, and realistic!".

(** The f-string of the itinerary task. *)
Definition itinerary_description
    (origin destination : string) (start_date end_date : date)
    (interests : list string) (budget travel_style : string) : string :=
  "Create a detailed " ++ str_int (duration start_date end_date) ++
    "-day itinerary for a trip from " ++ origin ++ " to " ++
    destination ++ "." ++ nl ++
  nl ++
  "Trip details:" ++ nl ++
  "- Dates: " ++ strftime_B_d_Y start_date ++ " to " ++
    strftime_B_d_Y end_date ++ nl ++
  "- Interests: " ++ interests_str interests ++ nl ++
  "- Budget: " ++ budget ++ nl ++
  "- Travel style: " ++ travel_style ++ nl ++
  nl ++
  itinerary_instructions.

Definition create_tasks
    (city_expert itinerary_planner : Agent)
    (origin destination : string) (start_date end_date : date)
    (interests : list string) (budget travel_style : string)
  : list Task :=
  (* Task 1: Research destination *)
  let research_task := mkTask
    (research_description destination interests budget travel_style)
    city_expert
    "Detailed city information with practical travel tips in a structured format"
    None in
  (* Task 2: Create itinerary *)
  let itinerary_task := mkTask
    (itinerary_description origin destination start_date end_date
       interests budget travel_style)
    itinerary_planner
    "Complete day-by-day itinerary with specific activities, timings, and practical details"
    (Some [research_task]) in
  [research_task; itinerary_task].

(** *** Generate trip plan using CrewAI (OpenAI) *)

(** The body of the [try] block. *)
Definition generate_trip_plan_body (c : Collaborator)
    (openai_api_key origin destination : string)
    (start_date end_date : date) (interests : list string)
    (budget travel_style : string) : outcome string :=
  (* Create agents *)
  ags <- create_agents c openai_api_key ;;
  let '(city_expert, itinerary_planner) := ags in
  (* Create tasks *)
  let tasks := create_tasks city_expert itinerary_planner
                 origin destination start_date end_date
                 interests budget travel_style in
  (* Create crew *)
  let crew := mkCrew [city_expert; itinerary_planner] tasks true in
  (* Execute *)
  kickoff c crew.

(** The text the [except] branch returns. *)
Definition error_text (e : exc) : string :=
  "Error generating trip plan: " ++ str_exc e ++ nl ++ nl ++
  "Please check your OpenAI API key and try again.".

Definition generate_trip_plan (c : Collaborator)
    (openai_api_key origin destination : string)
    (start_date end_date : date) (interests : list string)
    (budget travel_style : string) : outcome string :=
  try_except_Exception
    (generate_trip_plan_body c openai_api_key origin destination
       start_date end_date interests budget travel_style)
    (fun e => Return (error_text e)).

(** *** Session state *)

(** [st.session_state], with the two keys the script initialises:
    [trip_plan = None] and [generating = False]. *)
Record SessionState := mkSession {
  trip_plan : option string;
  generating : bool
}.

Definition initial_session : SessionState := mkSession None false.

(** [st.session_state.generating = True] *)
Definition beginGeneration (s : SessionState) : SessionState :=
  mkSession (trip_plan s) true.

(** [st.session_state.trip_plan = result] followed by
    [st.session_state.generating = False] *)
Definition completeGeneration (result : string) (s : SessionState)
  : SessionState :=
  let s1 := mkSession (Some result) (generating s) in
  mkSession (trip_plan s1) false.

(** [st.session_state.trip_plan = None] *)
Definition clear (s : SessionState) : SessionState :=
  mkSession None (generating s).

(** *** The form and what a handler does to the page *)

(** The values of the widgets on one run of the script. *)
Record Widgets := mkWidgets {
  env_key : string;            (* os.getenv("OPENAI_API_KEY", "") *)
  key_input : string;          (* the sidebar text input *)
  origin : string;
  destination : string;
  start_date : date;
  end_date : date;
  interests : list string;
  budget : string;
  travel_style : string
}.

(** [openai_api_key = env_key or st.text_input(...)] *)
Definition openai_api_key (w : Widgets) : string :=
  or_str (env_key w) (key_input w).

(** What a handler does besides updating the session, in order.
    [call_generate_trip_plan] marks the call of the core with the
    arguments it is given. *)
Inductive effect : Type :=
| st_error (msg : string)
| st_status (label : string)
| st_write (msg : string)
| call_generate_trip_plan
    (key origin destination : string) (start_date end_date : date)
    (interests : list string) (budget travel_style : string)
| status_update (label : string)
| st_rerun.

(** The result of a handler: the session it leaves, its effects, and the
    exception that escaped it, if any. *)
Record Handled := mkHandled {
  session : SessionState;
  effects : list effect;
  escaped : option exc
}.

(** *** Generate button *)

(** The body of [if generate_button:]. *)
Definition on_generate_button (c : Collaborator) (w : Widgets)
    (s : SessionState) : Handled :=
  if negb (truthy (openai_api_key w)) then
    mkHandled s
      [st_error "⚠️ Please enter your OpenAI API key in the sidebar."] None
  else if negb (truthy (origin w)) || negb (truthy (destination w)) then
    mkHandled s
      [st_error "⚠️ Please enter both origin and destination cities."] None
  else if negb (truthy_list (interests w)) then
    mkHandled s
      [st_error "⚠️ Please select at least one interest."] None
  else
    let s1 := beginGeneration s in
    let before :=
      [ st_status "🤖 AI Agents are planning your trip...";
        st_write "🔍 City Expert is researching your destination...";
        st_write "📝 Itinerary Planner is creating your schedule...";
        st_write "⚡ Using OpenAI models...";
        call_generate_trip_plan (openai_api_key w) (origin w)
          (destination w) (start_date w) (end_date w) (interests w)
          (budget w) (travel_style w) ] in
    match generate_trip_plan c (openai_api_key w) (origin w)
            (destination w) (start_date w) (end_date w) (interests w)
            (budget w) (travel_style w) with
    | Return result =>
        mkHandled (completeGeneration result s1)
          (before ++ [status_update "✅ Trip plan generated successfully!"])
          None
    | Raise e => mkHandled s1 before (Some e)
    end.

(** *** Generate New Plan button *)

(** The button is drawn inside [if st.session_state.trip_plan:], so it can
    only be pressed while a non-empty plan is held; [None] when it is not
    on the page. *)
Definition on_new_plan_button (s : SessionState) : option Handled :=
  match trip_plan s with
  | Some plan =>
      if truthy plan then Some (mkHandled (clear s) [st_rerun] None)
      else None
  | None => None
  end.

(** The three guards of the generate handler, taken together: some
    required input is missing. *)
Definition inputs_missing (w : Widgets) : bool :=
  negb (truthy (openai_api_key w)) ||
  (negb (truthy (origin w)) || negb (truthy (destination w))) ||
  negb (truthy_list (interests w)).

(** Whether a handler called the core. *)
Definition is_core_call (e : effect) : bool :=
  match e with
  | call_generate_trip_plan _ _ _ _ _ _ _ _ => true
  | _ => false
  end.

End App.

(* ================================================================== *)
(** ** Concrete requests and collaborators                             *)
(* ================================================================== *)

Module Scenario.

Import PyDate Py Crewai App.

(** New York to Paris, 2025-06-01 to 2025-06-05. *)
Definition new_york_paris : Widgets :=
  mkWidgets "" "sk-test" "New York" "Paris"
    (mkDate 2025 6 1) (mkDate 2025 6 5)
    ["Food & Dining"] "Moderate" "Balanced".

(** The same request with the two dates exchanged. *)
Definition paris_backwards : Widgets :=
  mkWidgets "" "sk-test" "New York" "Paris"
    (mkDate 2025 6 5) (mkDate 2025 6 1)
    ["Food & Dining"] "Moderate" "Balanced".

(** The form with nothing selected in the interests widget. *)
Definition no_interests : Widgets :=
  mkWidgets "" "sk-test" "New York" "Paris"
    (mkDate 2025 6 1) (mkDate 2025 6 5)
    [] "Moderate" "Balanced".

Definition openai_ok (model key : string) : outcome LLM :=
  Return (mkLLM model key).

(** A collaborator whose run returns [text]. *)
Definition replying (text : string) : Collaborator :=
  mkCollaborator openai_ok (fun _ => Return text).

(** A collaborator whose run raises [e]. *)
Definition failing (e : exc) : Collaborator :=
  mkCollaborator openai_ok (fun _ => Raise e).

(** [RuntimeError("rate limit")] *)
Definition rate_limit : exc := mkExc true "rate limit".

(** [KeyboardInterrupt()], which derives from [BaseException] only. *)
Definition KeyboardInterrupt : exc := mkExc false "".

Definition some_agent : Agent :=
  mkAgent "r" "g" "b" true false (mkLLM "gpt-4o-mini" "sk-test").

Definition other_agent : Agent :=
  mkAgent "r2" "g2" "b2" false true (mkLLM "gpt-4.1" "sk-other").

End Scenario.

(* ================================================================== *)
(** ** The rest of the page: sidebar, results, script runs             *)
(* ================================================================== *)

Module Page.

Import PyStr PyDate Py Crewai App.

(** [s.replace(old, new)] for one-character [old] and [new]. *)
Fixpoint replace_char (old new : ascii) (s : string) : string :=
  match s with
  | EmptyString => EmptyString
  | String ch rest =>
      String (if Ascii.eqb ch old then new else ch)
             (replace_char old new rest)
  end.

(** [s.lower()] on ASCII text: [A] to [Z] become [a] to [z], every other
    character is kept. *)
Definition lower_char (ch : ascii) : ascii :=
  let n := nat_of_ascii ch in
  if (65 <=? n)%nat && (n <=? 90)%nat then ascii_of_nat (n + 32) else ch.

Fixpoint lower_ascii (s : string) : string :=
  match s with
  | EmptyString => EmptyString
  | String ch rest => String (lower_char ch) (lower_ascii rest)
  end.

(** [d.strftime('%Y%m%d')] *)
Definition strftime_Ymd (d : date) : string :=
  zero_pad 4 (year d) ++ zero_pad 2 (month d) ++ zero_pad 2 (day d).

(** What the script draws. *)
Inductive element : Type :=
| ui_success (body : string)
| ui_warning (body : string)
| ui_info (body : string)
| ui_markdown (body : string)
| ui_metric (label value : string)
| ui_caption (body : string)
| ui_download_button (label data file_name mime : string)
| ui_button (label : string).

(** The sidebar: [if openai_api_key: st.success(...) else: st.warning(...)] *)
Definition sidebar_status (w : Widgets) : element :=
  if truthy (openai_api_key w) then ui_success "✅ API Key set!"
  else ui_warning "⚠️ Please enter your OpenAI API key".

(** The [file_name] of the download button.  [str.lower] follows the
    Unicode tables and is taken as the parameter [lower]. *)
Definition file_name (lower : string -> string) (destination : string)
    (start_date : date) : string :=
  "trip_plan_" ++ replace_char " " "_" (lower destination) ++ "_" ++
  strftime_Ymd start_date ++ ".txt".

(** *** Display results *)

(** The block under [if st.session_state.trip_plan:], with the values
    the widgets have on this run. *)
Definition display_results (lower : string -> string) (w : Widgets)
    (s : SessionState) : list element :=
  match trip_plan s with
  | None => []
  | Some plan =>
      if truthy plan then
        [ ui_success "✅ Your personalized trip plan is ready!";
          ui_markdown "### 📋 Trip Summary";
          ui_metric "Route" (origin w ++ " → " ++ destination w);
          ui_metric "Duration"
            (str_int (duration (start_date w) (end_date w)) ++ " days");
          ui_metric "Budget" (budget w);
          ui_metric "Style" (travel_style w);
          ui_info ("**Interests:** " ++ join ", " (interests w));
          ui_caption ("**Travel Dates:** " ++
                      strftime_B_d_Y (start_date w) ++ " - " ++
                      strftime_B_d_Y (end_date w));
          ui_markdown "### 🗺️ Your Personalized Trip Plan";
          ui_markdown plan;
          ui_download_button "📥 Download Plan" plan
            (file_name lower (destination w) (start_date w)) "text/plain";
          ui_button "🔄 Generate New Plan" ]
      else []
  end.

(** *** One run of the script *)

(** The button that triggered the run, if any. *)
Inductive press : Type :=
| no_press
| press_generate
| press_new_plan.

(** The outcome of a run: the session it leaves, the results block on
    the page when the run ends, and the exception that stopped it, if
    any. *)
Record Run := mkRun {
  after : SessionState;
  results : list element;
  uncaught : option exc
}.

(** The script from top to bottom.  A press of the generate button runs
    its handler, then the results block is drawn from the session the
    handler left; an exception that escapes the handler stops the script
    before the results block.  A press of the new-plan button, which
    exists only while the results block is drawn, clears the plan and
    reruns the script with no button pressed. *)
Definition script_run (lower : string -> string) (c : Collaborator)
    (w : Widgets) (p : press) (s : SessionState) : Run :=
  match p with
  | no_press => mkRun s (display_results lower w s) None
  | press_generate =>
      let h := on_generate_button c w s in
      match escaped h with
      | Some e => mkRun (session h) [] (Some e)
      | None =>
          mkRun (session h) (display_results lower w (session h)) None
      end
  | press_new_plan =>
      match on_new_plan_button s with
      | Some h =>
          mkRun (session h) (display_results lower w (session h)) None
      | None => mkRun s (display_results lower w s) None
      end
  end.

(** A user session: one run after the other on the same session state.
    The result is the last session and the exceptions that stopped a run,
    in order. *)
Fixpoint script_runs (lower : string -> string)
    (steps : list (Collaborator * Widgets * press)) (s : SessionState)
  : SessionState * list exc :=
  match steps with
  | [] => (s, [])
  | (c, w, p) :: rest =>
      let r := script_run lower c w p s in
      let '(final, raised) := script_runs lower rest (after r) in
      (final,
       match uncaught r with
       | Some e => e :: raised
       | None => raised
       end)
  end.

(** The number of calls of the core among the effects of a handler. *)
Definition core_calls (es : list effect) : nat :=
  List.length (filter is_core_call es).

End Page.

(* ================================================================== *)
(** * Facts about the string primitives                                *)
(* ================================================================== *)

Section StringFacts.

Import PyStr.

Lemma app_assoc_str (a b c : string) : (a ++ b) ++ c = a ++ (b ++ c).
Proof.
  induction a as [|ch a IH]; simpl; [reflexivity | now rewrite IH].
Qed.

Lemma app_empty_r (a : string) : a ++ "" = a.
Proof.
  induction a as [|ch a IH]; simpl; [reflexivity | now rewrite IH].
Qed.

Lemma Contains_refl (s : string) : Contains s s.
Proof.
  exists "", "". simpl. now rewrite app_empty_r.
Qed.

Lemma Contains_app_l (a b n : string) : Contains a n -> Contains (a ++ b) n.
Proof.
  intros (pre & post & ->). exists pre, (post ++ b).
  now rewrite !app_assoc_str.
Qed.

Lemma Contains_app_r (a b n : string) : Contains b n -> Contains (a ++ b) n.
Proof.
  intros (pre & post & ->). exists (a ++ pre), post.
  now rewrite !app_assoc_str.
Qed.

Lemma Contains_head (n b : string) : Contains (n ++ b) n.
Proof. apply Contains_app_l, Contains_refl. Qed.

Lemma Contains_trans (a b c : string) :
  Contains a b -> Contains b c -> Contains a c.
Proof.
  intros (p1 & q1 & ->) H. apply Contains_app_r, Contains_app_l, H.
Qed.

Lemma prefix_split (n h : string) :
  String.prefix n h = true -> exists post, h = n ++ post.
Proof.
  revert h. induction n as [|a n IH]; intros h H.
  - exists h. reflexivity.
  - destruct h as [|b h]; simpl in H; [discriminate|].
    destruct (ascii_dec a b) as [->|]; [|discriminate].
    destruct (IH _ H) as (post & ->). exists post. reflexivity.
Qed.

(** The scan agrees with the proposition, in the direction used to check
    concrete templates. *)
Lemma contains_sound (h n : string) :
  contains h n = true -> Contains h n.
Proof.
  induction h as [|a h IH]; cbn [contains].
  - destruct (String.prefix n "") eqn:P; intros H; [|discriminate H].
    destruct (prefix_split _ _ P) as (post & E).
    exists "", post. exact E.
  - destruct (String.prefix n (String a h)) eqn:P; intros H.
    + destruct (prefix_split _ _ P) as (post & E).
      exists "", post. exact E.
    + destruct (IH H) as (pre & post & ->).
      exists (String a pre), post. reflexivity.
Qed.

Lemma prefix_app (n post : string) : String.prefix n (n ++ post) = true.
Proof.
  induction n as [|a n IH]; simpl.
  - destruct post; reflexivity.
  - destruct (ascii_dec a a) as [_|N]; [exact IH | now destruct N].
Qed.

Lemma contains_unfold (h n : string) :
  contains h n =
  if String.prefix n h then true
  else match h with
       | EmptyString => false
       | String _ h' => contains h' n
       end.
Proof. destruct h; reflexivity. Qed.

Lemma contains_complete (h n : string) :
  Contains h n -> contains h n = true.
Proof.
  intros (pre & post & ->).
  induction pre as [|a pre IH].
  - rewrite contains_unfold.
    change ("" ++ n ++ post) with (n ++ post).
    now rewrite prefix_app.
  - rewrite contains_unfold.
    change (String a pre ++ n ++ post) with (String a (pre ++ n ++ post)).
    destruct (String.prefix n (String a (pre ++ n ++ post)));
      [reflexivity | exact IH].
Qed.

Lemma contains_spec (h n : string) :
  contains h n = true <-> Contains h n.
Proof. split; [apply contains_sound | apply contains_complete]. Qed.

(** Every element of a joined list occurs in the result. *)
Lemma join_Contains (sep : string) (xs : list string) (x : string) :
  In x xs -> Contains (join sep xs) x.
Proof.
  induction xs as [|y ys IH]; intros Hin; [contradiction|].
  destruct ys as [|z zs].
  - destruct Hin as [->|[]]. apply Contains_refl.
  - change (join sep (y :: z :: zs)) with (y ++ sep ++ join sep (z :: zs)).
    destruct Hin as [->|Hin].
    + apply Contains_head.
    + apply Contains_app_r, Contains_app_r, IH, Hin.
Qed.

End StringFacts.

(* ================================================================== *)
(** * Facts about dates                                                *)
(* ================================================================== *)

Section DateFacts.

Import PyDate.

(** Case analysis on the tests of a calendar computation. *)
Ltac split_tests :=
  repeat match goal with
  | |- context [Z.eqb ?a ?b] => destruct (Z.eqb_spec a b)
  | |- context [Z.ltb ?a ?b] => destruct (Z.ltb_spec a b)
  | H : context [Z.eqb ?a ?b] |- _ => destruct (Z.eqb_spec a b)
  | H : context [Z.ltb ?a ?b] |- _ => destruct (Z.ltb_spec a b)
  end.

(** The twelve months, one by one. *)
Ltac each_month m :=
  let H := fresh in
  assert (H : m = 1 \/ m = 2 \/ m = 3 \/ m = 4 \/ m = 5 \/ m = 6 \/
              m = 7 \/ m = 8 \/ m = 9 \/ m = 10 \/ m = 11 \/ m = 12)
    by lia;
  repeat (destruct H as [H|H]; [subst m|]); [..|subst m].

Lemma days_before_year_succ (y : Z) :
  days_before_year (y + 1) = days_before_year y + 365 + leap_day y.
Proof.
  unfold leap_day, is_leap, days_before_year.
  replace (y + 1 - 1) with y by lia.
  split_tests; simpl; Z.div_mod_to_equations; lia.
Qed.

Lemma days_before_year_mono (y1 y2 : Z) :
  y1 <= y2 -> days_before_year y1 <= days_before_year y2.
Proof.
  unfold days_before_year. intros H.
  Z.div_mod_to_equations. lia.
Qed.

Lemma days_in_month_range (y m : Z) :
  1 <= m <= 12 -> 28 <= days_in_month y m <= 31.
Proof.
  intros H. unfold days_in_month.
  destruct ((m =? 2) && is_leap y); [lia|].
  each_month m; simpl; lia.
Qed.

Lemma days_before_month_succ (y m : Z) :
  1 <= m < 12 ->
  days_before_month y (m + 1) = days_before_month y m + days_in_month y m.
Proof.
  intros H. unfold days_before_month, days_in_month.
  destruct (is_leap y); each_month m; simpl; lia.
Qed.

Lemma days_before_month_last (y : Z) :
  days_before_month y 12 + days_in_month y 12 = 365 + leap_day y.
Proof.
  unfold days_before_month, days_in_month, leap_day.
  destruct (is_leap y); simpl; lia.
Qed.

Lemma days_before_month_mono (y m1 m2 : Z) :
  1 <= m1 -> m1 <= m2 -> m2 <= 12 ->
  days_before_month y m1 <= days_before_month y m2.
Proof.
  intros H1 H12 H2. unfold days_before_month.
  destruct (is_leap y); each_month m1; each_month m2; simpl; lia.
Qed.

(** A valid date lies inside its year. *)
Lemma day_of_year_range (d : date) :
  valid d ->
  1 <= days_before_month (year d) (month d) + day d
    <= 365 + leap_day (year d).
Proof.
  intros (_ & Hm & Hd).
  assert (L := days_before_month_last (year d)).
  assert (M := days_before_month_mono (year d) (month d) 12).
  assert (M1 := days_before_month_mono (year d) 1 (month d)).
  change (days_before_month (year d) 1) with 0 in M1.
  destruct (Z.eq_dec (month d) 12) as [E|NE].
  - rewrite E in *. lia.
  - assert (S := days_before_month_succ (year d) (month d)).
    assert (M' := days_before_month_mono (year d) (month d + 1) 12).
    assert (R := days_in_month_range (year d) 12).
    lia.
Qed.

Lemma validb_spec (d : date) : validb d = true <-> valid d.
Proof.
  unfold validb, valid. rewrite !andb_true_iff, !Z.leb_le. tauto.
Qed.

(** Dates compare as their ordinals do. *)
Lemma toordinal_lt (a b : date) :
  valid a -> valid b -> date_lt a b -> toordinal a < toordinal b.
Proof.
  intros Va Vb Hlt.
  assert (Ra := day_of_year_range a Va).
  assert (Rb := day_of_year_range b Vb).
  unfold toordinal.
  destruct Hlt as [Hy | (Ey & [Hm | (Em & Hd)])].
  - assert (S := days_before_year_succ (year a)).
    assert (M := days_before_year_mono (year a + 1) (year b)).
    lia.
  - rewrite Ey in *.
    destruct Va as (_ & Hma & Hda), Vb as (_ & Hmb & Hdb).
    rewrite Ey in *.
    assert (S := days_before_month_succ (year b) (month a)).
    assert (M := days_before_month_mono (year b) (month a + 1) (month b)).
    lia.
  - rewrite Ey, Em. lia.
Qed.

Lemma date_lt_trichotomy (a b : date) :
  date_lt a b \/ a = b \/ date_lt b a.
Proof.
  destruct a as [ya ma da], b as [yb mb db]. unfold date_lt; simpl.
  destruct (Z.lt_trichotomy ya yb) as [?|[->|?]]; [lia| |lia].
  destruct (Z.lt_trichotomy ma mb) as [?|[->|?]]; [lia| |lia].
  destruct (Z.lt_trichotomy da db) as [?|[->|?]]; [lia| |lia].
  right; left; reflexivity.
Qed.

Lemma toordinal_le (a b : date) :
  valid a -> valid b -> date_le a b -> toordinal a <= toordinal b.
Proof.
  intros Va Vb [Hlt | ->]; [|lia].
  apply Z.lt_le_incl, toordinal_lt; assumption.
Qed.

Lemma toordinal_lt_inv (a b : date) :
  valid a -> valid b -> toordinal a < toordinal b -> date_lt a b.
Proof.
  intros Va Vb H.
  destruct (date_lt_trichotomy a b) as [L|[E|L]]; [exact L | subst; lia |].
  apply toordinal_lt in L; [lia | assumption..].
Qed.

Lemma toordinal_inj (a b : date) :
  valid a -> valid b -> toordinal a = toordinal b -> a = b.
Proof.
  intros Va Vb H.
  destruct (date_lt_trichotomy a b) as [L|[E|L]]; [|exact E|];
    apply toordinal_lt in L; (lia || assumption).
Qed.

(** The calendar successor is the next ordinal. *)
Lemma toordinal_next_day (d : date) :
  valid d -> toordinal (next_day d) = toordinal d + 1.
Proof.
  intros (Hy & Hm & Hd). unfold next_day, toordinal.
  destruct (Z.ltb_spec (day d) (days_in_month (year d) (month d))); simpl.
  - lia.
  - destruct (Z.ltb_spec (month d) 12); simpl.
    + rewrite days_before_month_succ by lia. lia.
    + assert (E : month d = 12) by lia. rewrite E in *.
      rewrite days_before_year_succ.
      assert (L := days_before_month_last (year d)).
      change (days_before_month (year d + 1) 1) with 0. lia.
Qed.

(** The successor of a date that is not the last one is a date. *)
Lemma next_day_valid (d e : date) :
  valid d -> valid e -> date_lt d e -> valid (next_day d).
Proof.
  intros (Hy & Hm & Hd) (Hye & Hme & Hde) Hlt. unfold next_day, valid.
  destruct (Z.ltb_spec (day d) (days_in_month (year d) (month d))); simpl.
  - lia.
  - destruct (Z.ltb_spec (month d) 12); simpl.
    + assert (R := days_in_month_range (year d) (month d + 1)). lia.
    + assert (E : month d = 12) by lia.
      assert (year d < year e).
      { destruct Hlt as [?|(Ey & [?|(Em & ?)])]; [lia|lia|].
        rewrite Ey, Em in *. lia. }
      unfold days_in_month, MINYEAR, MAXYEAR in *. simpl. lia.
Qed.

(** Walking the calendar from [a] reaches [b] after exactly
    [toordinal b - toordinal a] days. *)
Lemma next_day_walk (n : nat) (a b : date) :
  valid a -> valid b ->
  toordinal b - toordinal a = Z.of_nat n ->
  Nat.iter n next_day a = b.
Proof.
  revert a. induction n as [|n IH]; intros a Va Vb H.
  - simpl. apply toordinal_inj; [assumption..|lia].
  - rewrite Nat.iter_succ_r.
    assert (L : date_lt a b) by (apply toordinal_lt_inv; [assumption..|lia]).
    apply IH.
    + eapply next_day_valid; eassumption.
    + assumption.
    + rewrite toordinal_next_day by assumption. lia.
Qed.

End DateFacts.

(* ================================================================== *)
(** * The prompt builder                                               *)
(* ================================================================== *)

Section PromptBuilder.

Import PyStr PyDate Py Crewai App Scenario.

(** Finds the needle among the pieces of a template. *)
Ltac find_piece :=
  solve [ apply Contains_refl
        | apply Contains_head
        | apply Contains_app_r; find_piece ].

Lemma itinerary_has_interests_str o d sd ed ints b ts :
  Contains (itinerary_description o d sd ed ints b ts) (interests_str ints).
Proof. unfold itinerary_description. find_piece. Qed.

(** The template opens with the day count. *)
Lemma itinerary_opening o d sd ed ints b ts :
  exists rest,
    itinerary_description o d sd ed ints b ts
    = "Create a detailed " ++ str_int (duration sd ed) ++ "-day" ++ rest.
Proof.
  unfold itinerary_description. eexists.
  do 2 (apply f_equal). reflexivity.
Qed.

Lemma itinerary_has_opening o d sd ed ints b ts :
  Contains (itinerary_description o d sd ed ints b ts)
           ("Create a detailed " ++ str_int (duration sd ed) ++ "-day").
Proof.
  destruct (itinerary_opening o d sd ed ints b ts) as (rest & ->).
  rewrite <- !app_assoc_str. apply Contains_head.
Qed.

Lemma itinerary_has_day_count o d sd ed ints b ts :
  Contains (itinerary_description o d sd ed ints b ts)
           (str_int (duration sd ed) ++ "-day").
Proof.
  eapply Contains_trans; [apply itinerary_has_opening|].
  apply Contains_app_r, Contains_refl.
Qed.

(** C2.  For two dates with [start_date <= end_date], the duration the
    prompt builder computes is the number of days between the two dates
    plus one, and it is at least one.  The number of days between them is
    the difference of their ordinals, which is also the number of calendar
    steps that lead from the start date to the end date. *)
Theorem duration_days_valid_request (sd ed : date) :
  valid sd -> valid ed -> date_le sd ed ->
  duration sd ed = (toordinal ed - toordinal sd) + 1 /\
  1 <= duration sd ed /\
  Nat.iter (Z.to_nat (duration sd ed - 1)) next_day sd = ed.
Proof.
  intros Vs Ve Hle.
  assert (M := toordinal_le sd ed Vs Ve Hle).
  unfold duration, sub; simpl.
  repeat split; [lia|].
  apply next_day_walk; [assumption..|].
  rewrite Z2Nat.id; lia.
Qed.

Lemma duration_days_valid_request_witness :
  valid (mkDate 2024 2 27) /\ valid (mkDate 2024 3 1) /\
  date_le (mkDate 2024 2 27) (mkDate 2024 3 1) /\
  (duration (mkDate 2024 2 27) (mkDate 2024 3 1)
     = (toordinal (mkDate 2024 3 1) - toordinal (mkDate 2024 2 27)) + 1 /\
   1 <= duration (mkDate 2024 2 27) (mkDate 2024 3 1) /\
   Nat.iter
     (Z.to_nat (duration (mkDate 2024 2 27) (mkDate 2024 3 1) - 1))
     next_day (mkDate 2024 2 27) = mkDate 2024 3 1).
Proof.
  assert (Vs : valid (mkDate 2024 2 27)) by (apply validb_spec; reflexivity).
  assert (Ve : valid (mkDate 2024 3 1)) by (apply validb_spec; reflexivity).
  assert (L : date_le (mkDate 2024 2 27) (mkDate 2024 3 1))
    by (left; right; simpl; split; [reflexivity | left; lia]).
  split; [exact Vs|]. split; [exact Ve|]. split; [exact L|].
  exact (duration_days_valid_request _ _ Vs Ve L).
Defined.

(** Across the leap day of 2024: 27, 28, 29 February and 1 March. *)
Example duration_over_leap_day :
  duration (mkDate 2024 2 27) (mkDate 2024 3 1) = 4 /\
  duration (mkDate 2025 2 27) (mkDate 2025 3 1) = 3.
Proof. split; reflexivity. Qed.

(** C3.  The description of the itinerary task contains the computed
    duration, the two formatted dates and every selected interest. *)
Theorem itinerary_description_contents
    (city_expert itinerary_planner : Agent)
    (o d : string) (sd ed : date) (ints : list string) (b ts : string) :
  exists research_task itinerary_task,
    create_tasks city_expert itinerary_planner o d sd ed ints b ts
      = [research_task; itinerary_task] /\
    Contains (description itinerary_task) (str_int (duration sd ed)) /\
    Contains (description itinerary_task) (strftime_B_d_Y sd) /\
    Contains (description itinerary_task) (strftime_B_d_Y ed) /\
    (forall label, In label ints ->
       Contains (description itinerary_task) label).
Proof.
  do 2 eexists. split; [reflexivity|]. cbn [description].
  repeat split.
  - eapply Contains_trans; [apply itinerary_has_day_count|].
    apply Contains_head.
  - unfold itinerary_description. find_piece.
  - unfold itinerary_description. find_piece.
  - intros label Hin.
    eapply Contains_trans; [apply itinerary_has_interests_str|].
    apply join_Contains, Hin.
Qed.

(** C5.  The prompt builder is deterministic.  The texts of its two
    task specifications are the two templates filled with the trip
    request and nothing else: the agents the tasks are bound to have no
    part in them, so two runs on the same request give the same
    descriptions and expected outputs even when everything else differs
    between the runs; and inside a generation, where the agents come
    from the collaborator, the texts handed over to be run are the same
    whatever the collaborator returned for the model handle, whatever
    the key, and whatever running a crew does. *)
Theorem task_texts_depend_on_request_only
    (o d : string) (sd ed : date) (ints : list string) (b ts : string) :
  let texts :=
    [ research_description d ints b ts;
      itinerary_description o d sd ed ints b ts ] in
  let outputs :=
    [ "Detailed city information with practical travel tips in a structured format";
      "Complete day-by-day itinerary with specific activities, timings, and practical details" ] in
  (forall expert planner : Agent,
     map description (create_tasks expert planner o d sd ed ints b ts)
       = texts /\
     map expected_output
         (create_tasks expert planner o d sd ed ints b ts) = outputs) /\
  (forall expert1 planner1 expert2 planner2 : Agent,
     map description (create_tasks expert1 planner1 o d sd ed ints b ts)
       = map description
           (create_tasks expert2 planner2 o d sd ed ints b ts) /\
     map expected_output
         (create_tasks expert1 planner1 o d sd ed ints b ts)
       = map expected_output
           (create_tasks expert2 planner2 o d sd ed ints b ts)) /\
  (forall (c : Collaborator) (key : string) (handle : LLM),
     OpenAI c "gpt-4o-mini" key = Return handle ->
     exists crew,
       (forall run : Crew -> outcome string,
          generate_trip_plan_body (mkCollaborator (OpenAI c) run)
            key o d sd ed ints b ts = run crew) /\
       map description (tasks crew) = texts /\
       map expected_output (tasks crew) = outputs).
Proof.
  cbv zeta. split; [|split].
  - intros expert planner. split; reflexivity.
  - intros expert1 planner1 expert2 planner2. split; reflexivity.
  - intros c key handle H. eexists. split; [|split].
    + intros run. unfold generate_trip_plan_body, create_agents.
      cbn [OpenAI kickoff]. rewrite H. cbn [bind]. reflexivity.
    + reflexivity.
    + reflexivity.
Qed.

(** The texts do follow the request: another destination, another
    research text; and two collaborators that hand out different model
    handles are given the same texts to run. *)
Example task_texts_follow_request :
  map description
    (create_tasks some_agent other_agent "New York" "Paris"
       (mkDate 2025 6 1) (mkDate 2025 6 5) ["Food & Dining"]
       "Moderate" "Balanced")
  <> map description
       (create_tasks some_agent other_agent "New York" "Rome"
          (mkDate 2025 6 1) (mkDate 2025 6 5) ["Food & Dining"]
          "Moderate" "Balanced") /\
  map description
    (create_tasks some_agent other_agent "New York" "Paris"
       (mkDate 2025 6 1) (mkDate 2025 6 5) ["Food & Dining"]
       "Moderate" "Balanced")
  = map description
      (create_tasks other_agent some_agent "New York" "Paris"
         (mkDate 2025 6 1) (mkDate 2025 6 5) ["Food & Dining"]
         "Moderate" "Balanced").
Proof. split; [discriminate | reflexivity]. Qed.

(** The interests enter the text in the order they are given. *)
Example interests_order_shows :
  interests_str ["History"; "Shopping"] = "History, Shopping" /\
  interests_str ["Shopping"; "History"] = "Shopping, History" /\
  interests_str [] = "".
Proof. repeat split. Qed.

(** C6.  The research task comes first in the list, the itinerary task
    second; the itinerary task names the research task as its context and
    the research task names none. *)
Theorem create_tasks_order_and_context
    (city_expert itinerary_planner : Agent)
    (o d : string) (sd ed : date) (ints : list string) (b ts : string) :
  exists research_task itinerary_task,
    create_tasks city_expert itinerary_planner o d sd ed ints b ts
      = [research_task; itinerary_task] /\
    description research_task = research_description d ints b ts /\
    agent research_task = city_expert /\
    description itinerary_task
      = itinerary_description o d sd ed ints b ts /\
    agent itinerary_task = itinerary_planner /\
    context research_task = None /\
    context itinerary_task = Some [research_task].
Proof. do 2 eexists. repeat split. Qed.

End PromptBuilder.

(* ================================================================== *)
(** * The prompt builder on concrete and on reversed dates             *)
(* ================================================================== *)

Section PromptBuilderCases.

Import PyStr PyDate Py Crewai App Scenario.

(** The rendering of integers and dates on a few values. *)
Example str_int_samples :
  str_int 5 = "5" /\ str_int 0 = "0" /\ str_int (-3) = "-3" /\
  str_int 2025 = "2025".
Proof. repeat split. Qed.

Example strftime_samples :
  strftime_B_d_Y (mkDate 2025 6 1) = "June 01, 2025" /\
  strftime_B_d_Y (mkDate 2025 12 25) = "December 25, 2025" /\
  strftime_B_d_Y (mkDate 987 1 9) = "January 09, 0987".
Proof. repeat split. Qed.

Example toordinal_samples :
  toordinal (mkDate 1 1 1) = 1 /\
  toordinal (mkDate 1970 1 1) = 719163 /\
  toordinal (mkDate 2025 6 1) = 739403.
Proof. repeat split. Qed.

(** C8.  New York to Paris, 1 to 5 June 2025, Food & Dining, Moderate,
    Balanced: the duration is 5 and the itinerary description contains
    each of the seven expected pieces of text. *)
Theorem new_york_paris_scenario (city_expert itinerary_planner : Agent) :
  exists research_task itinerary_task,
    create_tasks city_expert itinerary_planner
      "New York" "Paris" (mkDate 2025 6 1) (mkDate 2025 6 5)
      ["Food & Dining"] "Moderate" "Balanced"
      = [research_task; itinerary_task] /\
    duration (mkDate 2025 6 1) (mkDate 2025 6 5) = 5 /\
    Contains (description itinerary_task) "5-day" /\
    Contains (description itinerary_task) "New York to Paris" /\
    Contains (description itinerary_task) "June 01, 2025" /\
    Contains (description itinerary_task) "June 05, 2025" /\
    Contains (description itinerary_task) "Food & Dining" /\
    Contains (description itinerary_task) "Moderate" /\
    Contains (description itinerary_task) "Balanced".
Proof.
  do 2 eexists. split; [reflexivity|]. split; [reflexivity|].
  cbn [description].
  repeat split; apply contains_sound; vm_compute; reflexivity.
Qed.

(** The text of that description, line by line. *)
Example new_york_paris_first_lines :
  exists rest,
    itinerary_description "New York" "Paris" (mkDate 2025 6 1)
      (mkDate 2025 6 5) ["Food & Dining"] "Moderate" "Balanced"
    = "Create a detailed 5-day itinerary for a trip from New York to Paris."
        ++ nl ++ nl ++
      "Trip details:" ++ nl ++
      "- Dates: June 01, 2025 to June 05, 2025" ++ nl ++
      "- Interests: Food & Dining" ++ nl ++
      "- Budget: Moderate" ++ nl ++
      "- Travel style: Balanced" ++ nl ++ rest.
Proof. eexists. vm_compute. reflexivity. Qed.

(** C9.  For two dates with the end date before the start date the prompt
    builder still returns its two tasks; the computed duration is zero or
    negative and stands in the itinerary description as it is, followed by
    [-day]. *)
Theorem create_tasks_reversed_dates
    (city_expert itinerary_planner : Agent)
    (o d : string) (sd ed : date) (ints : list string) (b ts : string) :
  valid sd -> valid ed -> date_lt ed sd ->
  exists research_task itinerary_task,
    create_tasks city_expert itinerary_planner o d sd ed ints b ts
      = [research_task; itinerary_task] /\
    duration sd ed <= 0 /\
    Contains (description itinerary_task)
             ("Create a detailed " ++ str_int (duration sd ed) ++ "-day").
Proof.
  intros Vs Ve Hlt.
  assert (M := toordinal_lt ed sd Ve Vs Hlt).
  do 2 eexists. split; [reflexivity|]. split.
  - unfold duration, sub; simpl. lia.
  - cbn [description]. apply itinerary_has_opening.
Qed.

Lemma create_tasks_reversed_dates_witness :
  valid (start_date paris_backwards) /\
  valid (end_date paris_backwards) /\
  date_lt (end_date paris_backwards) (start_date paris_backwards) /\
  exists research_task itinerary_task,
    create_tasks some_agent other_agent
      (origin paris_backwards) (destination paris_backwards)
      (start_date paris_backwards) (end_date paris_backwards)
      (interests paris_backwards) (budget paris_backwards)
      (travel_style paris_backwards)
      = [research_task; itinerary_task] /\
    duration (start_date paris_backwards) (end_date paris_backwards)
      <= 0 /\
    Contains (description itinerary_task)
      ("Create a detailed " ++
       str_int (duration (start_date paris_backwards)
                  (end_date paris_backwards)) ++ "-day").
Proof.
  assert (Vs : valid (start_date paris_backwards))
    by (apply validb_spec; reflexivity).
  assert (Ve : valid (end_date paris_backwards))
    by (apply validb_spec; reflexivity).
  assert (L : date_lt (end_date paris_backwards)
                      (start_date paris_backwards))
    by (right; simpl; split; [reflexivity | right; split; [reflexivity|lia]]).
  split; [exact Vs|]. split; [exact Ve|]. split; [exact L|].
  exact (create_tasks_reversed_dates some_agent other_agent
           (origin paris_backwards) (destination paris_backwards) _ _
           (interests paris_backwards) (budget paris_backwards)
           (travel_style paris_backwards) Vs Ve L).
Defined.

(** The two texts the reversed dates produce: one day back gives
    [0-day], four days back gives [-3-day]. *)
Example reversed_dates_samples :
  duration (mkDate 2025 6 5) (mkDate 2025 6 4) = 0 /\
  contains (itinerary_description "New York" "Paris" (mkDate 2025 6 5)
              (mkDate 2025 6 4) ["Food & Dining"] "Moderate" "Balanced")
           "Create a detailed 0-day itinerary" = true /\
  duration (mkDate 2025 6 5) (mkDate 2025 6 1) = -3 /\
  contains (itinerary_description "New York" "Paris" (mkDate 2025 6 5)
              (mkDate 2025 6 1) ["Food & Dining"] "Moderate" "Balanced")
           "Create a detailed -3-day itinerary" = true.
Proof. repeat split. Qed.

End PromptBuilderCases.

(* ================================================================== *)
(** * The plan generator                                               *)
(* ================================================================== *)

Section PlanGenerator.

Import PyStr PyDate Py Crewai App Scenario.

Lemma error_text_has_message (e : exc) :
  Contains (error_text e) (str_exc e).
Proof.
  unfold error_text. apply Contains_app_r, Contains_head.
Qed.

Lemma error_text_has_hint (e : exc) :
  Contains (error_text e)
           "Please check your OpenAI API key and try again.".
Proof.
  unfold error_text. do 4 apply Contains_app_r. apply Contains_refl.
Qed.

Lemma error_text_not_empty (e : exc) : error_text e <> "".
Proof. unfold error_text. simpl. discriminate. Qed.

(** What [try]/[except Exception] lets through. *)
Lemma try_except_Exception_raise {A} (body : outcome A)
    (handler : exc -> outcome A) (e : exc) :
  (forall e', exists a, handler e' = Return a) ->
  try_except_Exception body handler = Raise e ->
  body = Raise e /\ is_Exception e = false.
Proof.
  intros Hh. unfold try_except_Exception.
  destruct body as [a|e']; [discriminate|].
  destruct (is_Exception e') eqn:E.
  - destruct (Hh e') as (a & ->). discriminate.
  - intros [= ->]. auto.
Qed.

(** The tasks reach the collaborator in the order [create_tasks] returns
    them, bound to the two agents. *)
Lemma generate_trip_plan_body_submits
    (c : Collaborator) (key o d : string) (sd ed : date)
    (ints : list string) (b ts : string)
    (city_expert itinerary_planner : Agent) :
  create_agents c key = Return (city_expert, itinerary_planner) ->
  generate_trip_plan_body c key o d sd ed ints b ts
  = kickoff c
      (mkCrew [city_expert; itinerary_planner]
         (create_tasks city_expert itinerary_planner o d sd ed ints b ts)
         true).
Proof.
  intros H. unfold generate_trip_plan_body. rewrite H. reflexivity.
Qed.

Lemma generate_trip_plan_on_error
    (c : Collaborator) (key o d : string) (sd ed : date)
    (ints : list string) (b ts : string) (e : exc) :
  generate_trip_plan_body c key o d sd ed ints b ts = Raise e ->
  is_Exception e = true ->
  generate_trip_plan c key o d sd ed ints b ts = Return (error_text e).
Proof.
  intros B X. unfold generate_trip_plan. rewrite B. simpl.
  rewrite X. reflexivity.
Qed.

Lemma generate_trip_plan_on_return
    (c : Collaborator) (key o d : string) (sd ed : date)
    (ints : list string) (b ts : string) (text : string) :
  generate_trip_plan_body c key o d sd ed ints b ts = Return text ->
  generate_trip_plan c key o d sd ed ints b ts = Return text.
Proof.
  intros B. unfold generate_trip_plan. rewrite B. reflexivity.
Qed.

Lemma generate_trip_plan_on_raise
    (c : Collaborator) (key o d : string) (sd ed : date)
    (ints : list string) (b ts : string) (e : exc) :
  generate_trip_plan c key o d sd ed ints b ts = Raise e ->
  generate_trip_plan_body c key o d sd ed ints b ts = Raise e /\
  is_Exception e = false.
Proof.
  intros H. apply try_except_Exception_raise in H; [exact H|].
  intros e'. eexists. reflexivity.
Qed.

(** An object that is not an instance of [Exception] is outside the
    [except] clause: if one is raised inside the [try], the call raises
    it. *)
Lemma generate_trip_plan_interrupt_escapes :
  generate_trip_plan (failing KeyboardInterrupt) "sk-test"
    "New York" "Paris" (mkDate 2025 6 1) (mkDate 2025 6 5)
    ["Food & Dining"] "Moderate" "Balanced"
  = Raise KeyboardInterrupt.
Proof. reflexivity. Qed.

(** The three cases of the [try]/[except]: an exception of class
    [Exception] raised in the generation becomes the text made of its
    message and the hint; a result of the collaborator is returned as it
    is; the call raises only what is not an instance of [Exception]. *)
Lemma generate_trip_plan_converts_errors
    (c : Collaborator) (key o d : string) (sd ed : date)
    (ints : list string) (b ts : string) :
  let body := generate_trip_plan_body c key o d sd ed ints b ts in
  let result := generate_trip_plan c key o d sd ed ints b ts in
  (forall e, body = Raise e -> is_Exception e = true ->
     result = Return (error_text e) /\
     Contains (error_text e) (str_exc e) /\
     Contains (error_text e)
       "Please check your OpenAI API key and try again.") /\
  (forall text, body = Return text -> result = Return text) /\
  (forall e, result = Raise e ->
     is_Exception e = false /\ body = Raise e).
Proof.
  cbv zeta. split; [|split].
  - intros e B X. split; [|split].
    + apply generate_trip_plan_on_error; assumption.
    + apply error_text_has_message.
    + apply error_text_has_hint.
  - intros text B. apply generate_trip_plan_on_return, B.
  - intros e R. apply generate_trip_plan_on_raise in R. tauto.
Qed.

(** Every error of the generation comes from the collaborator: from
    building the model handle or from running the crew. *)
Lemma generate_trip_plan_body_raise
    (c : Collaborator) (key o d : string) (sd ed : date)
    (ints : list string) (b ts : string) (e : exc) :
  generate_trip_plan_body c key o d sd ed ints b ts = Raise e ->
  OpenAI c "gpt-4o-mini" key = Raise e \/
  exists crew, kickoff c crew = Raise e.
Proof.
  unfold generate_trip_plan_body, create_agents.
  destruct (OpenAI c "gpt-4o-mini" key) as [handle|e']; cbn [bind].
  - intros H. right. eexists. exact H.
  - intros [= ->]. left. reflexivity.
Qed.

(** C1.  For every input, the generation never raises: whatever error
    the collaborator raises, while the model handle is built or while the
    crew runs, the call returns a text; and when an error was raised,
    that text contains the message of the error and the hint to check
    the key and try again. *)
Theorem generate_trip_plan_never_raises
    (c : Collaborator) (key o d : string) (sd ed : date)
    (ints : list string) (b ts : string) :
  (forall model k e, OpenAI c model k = Raise e -> is_Exception e = true) ->
  (forall crew e, kickoff c crew = Raise e -> is_Exception e = true) ->
  exists text,
    generate_trip_plan c key o d sd ed ints b ts = Return text /\
    (forall e,
       generate_trip_plan_body c key o d sd ed ints b ts = Raise e ->
       text = error_text e /\
       Contains text (str_exc e) /\
       Contains text "Please check your OpenAI API key and try again.").
Proof.
  intros Hllm Hrun.
  destruct (generate_trip_plan_body c key o d sd ed ints b ts)
    as [text|e] eqn:B.
  - exists text. split.
    + apply generate_trip_plan_on_return, B.
    + intros e [=].
  - assert (X : is_Exception e = true).
    { destruct (generate_trip_plan_body_raise _ _ _ _ _ _ _ _ _ _ B)
        as [H|(crew & H)]; [eapply Hllm | eapply Hrun]; exact H. }
    exists (error_text e). split.
    + apply generate_trip_plan_on_error; assumption.
    + intros e' [= <-]. split; [reflexivity|].
      split; [apply error_text_has_message | apply error_text_has_hint].
Qed.

Lemma generate_trip_plan_never_raises_witness :
  (forall model k e,
     OpenAI (failing rate_limit) model k = Raise e ->
     is_Exception e = true) /\
  (forall crew e,
     kickoff (failing rate_limit) crew = Raise e ->
     is_Exception e = true) /\
  exists text,
    generate_trip_plan (failing rate_limit) "sk-test" "New York" "Paris"
      (mkDate 2025 6 1) (mkDate 2025 6 5) ["Food & Dining"]
      "Moderate" "Balanced" = Return text /\
    Contains text "rate limit" /\
    Contains text "Please check your OpenAI API key and try again.".
Proof.
  assert (Hllm : forall model k e,
            OpenAI (failing rate_limit) model k = Raise e ->
            is_Exception e = true)
    by (intros model k e H; discriminate H).
  assert (Hrun : forall crew e,
            kickoff (failing rate_limit) crew = Raise e ->
            is_Exception e = true)
    by (intros crew e H; injection H as <-; reflexivity).
  split; [exact Hllm|]. split; [exact Hrun|].
  destruct (generate_trip_plan_never_raises (failing rate_limit)
              "sk-test" "New York" "Paris" (mkDate 2025 6 1)
              (mkDate 2025 6 5) ["Food & Dining"] "Moderate" "Balanced"
              Hllm Hrun) as (text & R & H).
  exists text. split; [exact R|].
  destruct (H rate_limit eq_refl) as (_ & M & N).
  split; [exact M | exact N].
Defined.

(** The collaborator raises "rate limit": the text returned holds the
    message and the hint. *)
Example rate_limit_scenario :
  exists text,
    generate_trip_plan (failing rate_limit) "sk-test"
      "New York" "Paris" (mkDate 2025 6 1) (mkDate 2025 6 5)
      ["Food & Dining"] "Moderate" "Balanced" = Return text /\
    contains text "rate limit" = true /\
    contains text "Please check your OpenAI API key and try again." = true /\
    text = "Error generating trip plan: rate limit" ++ nl ++ nl ++
           "Please check your OpenAI API key and try again.".
Proof. eexists. repeat split. Qed.

(** An error while the model handle is built is converted the same way. *)
Example failing_constructor_scenario :
  generate_trip_plan
    (mkCollaborator (fun _ _ => Raise (mkExc true "bad key"))
                    (fun _ => Return "plan"))
    "sk-test" "New York" "Paris" (mkDate 2025 6 1) (mkDate 2025 6 5)
    ["Food & Dining"] "Moderate" "Balanced"
  = Return (error_text (mkExc true "bad key")).
Proof. reflexivity. Qed.

End PlanGenerator.

(* ================================================================== *)
(** * The session controller and the two buttons                       *)
(* ================================================================== *)

Section Session.

Import PyStr PyDate Py Crewai App Scenario.

(** C4.  From any session state: beginning a generation sets the flag,
    completing it with [r] stores [r] and resets the flag, clearing
    removes the plan and leaves the flag as it was; clearing a session
    that holds no plan changes nothing. *)
Theorem session_controller_operations (s : SessionState) (r : string) :
  generating (beginGeneration s) = true /\
  trip_plan (beginGeneration s) = trip_plan s /\
  trip_plan (completeGeneration r s) = Some r /\
  generating (completeGeneration r s) = false /\
  trip_plan (clear s) = None /\
  generating (clear s) = generating s /\
  (trip_plan s = None -> clear s = s).
Proof.
  repeat split. destruct s as [plan flag]; simpl. intros ->. reflexivity.
Qed.

(** The new-plan button applies [clear] and nothing else to the session. *)
Lemma on_new_plan_button_clears (s : SessionState) (h : Handled) :
  on_new_plan_button s = Some h ->
  session h = clear s /\ escaped h = None /\
  trip_plan (session h) = None /\
  generating (session h) = generating s.
Proof.
  unfold on_new_plan_button.
  destruct (trip_plan s) as [plan|]; [|discriminate].
  destruct (truthy plan); [|discriminate].
  intros [= <-]. repeat split.
Qed.

Lemma truthy_empty (x : string) : truthy x = false <-> x = "".
Proof. destruct x; simpl; split; (reflexivity || discriminate). Qed.

Lemma truthy_list_empty {A} (l : list A) : truthy_list l = false <-> l = [].
Proof. destruct l; simpl; split; (reflexivity || discriminate). Qed.

Lemma inputs_missing_spec (w : Widgets) :
  inputs_missing w = true <->
  openai_api_key w = "" \/ origin w = "" \/ destination w = "" \/
  interests w = [].
Proof.
  unfold inputs_missing.
  rewrite !orb_true_iff, !negb_true_iff, !truthy_empty, truthy_list_empty.
  tauto.
Qed.

(** With every required input present the handler runs the generation. *)
Lemma on_generate_button_runs (c : Collaborator) (w : Widgets)
    (s : SessionState) :
  inputs_missing w = false ->
  on_generate_button c w s =
    let before :=
      [ st_status "🤖 AI Agents are planning your trip...";
        st_write "🔍 City Expert is researching your destination...";
        st_write "📝 Itinerary Planner is creating your schedule...";
        st_write "⚡ Using OpenAI models...";
        call_generate_trip_plan (openai_api_key w) (origin w)
          (destination w) (start_date w) (end_date w) (interests w)
          (budget w) (travel_style w) ] in
    match generate_trip_plan c (openai_api_key w) (origin w)
            (destination w) (start_date w) (end_date w) (interests w)
            (budget w) (travel_style w) with
    | Return result =>
        mkHandled (completeGeneration result (beginGeneration s))
          (before ++ [status_update "✅ Trip plan generated successfully!"])
          None
    | Raise e => mkHandled (beginGeneration s) before (Some e)
    end.
Proof.
  unfold inputs_missing, on_generate_button. intros H.
  apply orb_false_iff in H as (H & H3).
  apply orb_false_iff in H as (H1 & H2).
  rewrite H1, H2, H3. reflexivity.
Qed.

(** The session and the escaping exception the handler leaves, by the
    outcome of the core. *)
Lemma on_generate_button_session (c : Collaborator) (w : Widgets)
    (s : SessionState) :
  inputs_missing w = false ->
  match generate_trip_plan c (openai_api_key w) (origin w)
          (destination w) (start_date w) (end_date w) (interests w)
          (budget w) (travel_style w) with
  | Return result =>
      session (on_generate_button c w s)
        = completeGeneration result (beginGeneration s) /\
      escaped (on_generate_button c w s) = None
  | Raise e =>
      session (on_generate_button c w s) = beginGeneration s /\
      escaped (on_generate_button c w s) = Some e
  end.
Proof.
  intros M. rewrite on_generate_button_runs by exact M. cbv zeta.
  destruct (generate_trip_plan _ _ _ _ _ _ _ _ _); split; reflexivity.
Qed.

(** With a required input missing the handler only shows an error. *)
Lemma on_generate_button_rejects (c : Collaborator) (w : Widgets)
    (s : SessionState) :
  inputs_missing w = true ->
  exists msg, on_generate_button c w s = mkHandled s [st_error msg] None.
Proof.
  unfold inputs_missing, on_generate_button. intros H.
  destruct (negb (truthy (openai_api_key w))); simpl in *.
  { eexists; reflexivity. }
  destruct (negb (truthy (origin w)) || negb (truthy (destination w)));
    simpl in *.
  { eexists; reflexivity. }
  rewrite H. eexists; reflexivity.
Qed.

(** C7.  When the generate button is pressed with the key, the origin,
    the destination or the interests missing, the handler shows one
    validation error, does not call the core and leaves the session as
    it was. *)
Theorem on_generate_button_rejects_missing_input
    (c : Collaborator) (w : Widgets) (s : SessionState) :
  openai_api_key w = "" \/ origin w = "" \/ destination w = "" \/
    interests w = [] ->
  (exists msg, effects (on_generate_button c w s) = [st_error msg]) /\
  existsb is_core_call (effects (on_generate_button c w s)) = false /\
  session (on_generate_button c w s) = s /\
  escaped (on_generate_button c w s) = None.
Proof.
  intros H. apply inputs_missing_spec in H.
  destruct (on_generate_button_rejects c w s H) as (msg & ->).
  repeat split. exists msg. reflexivity.
Qed.

Lemma on_generate_button_rejects_missing_input_witness :
  (openai_api_key no_interests = "" \/ origin no_interests = "" \/
   destination no_interests = "" \/ interests no_interests = []) /\
  (exists msg,
     effects (on_generate_button (replying "plan") no_interests
                initial_session) = [st_error msg]) /\
  existsb is_core_call
    (effects (on_generate_button (replying "plan") no_interests
                initial_session)) = false /\
  session (on_generate_button (replying "plan") no_interests
             initial_session) = initial_session /\
  escaped (on_generate_button (replying "plan") no_interests
             initial_session) = None.
Proof.
  assert (H : openai_api_key no_interests = "" \/
              origin no_interests = "" \/
              destination no_interests = "" \/
              interests no_interests = [])
    by (right; right; right; reflexivity).
  split; [exact H|].
  exact (on_generate_button_rejects_missing_input
           (replying "plan") no_interests initial_session H).
Defined.

(** Every call of the core that the handler makes carries a key, an
    origin, a destination and at least one interest. *)
Lemma on_generate_button_calls_with_valid_input
    (c : Collaborator) (w : Widgets) (s : SessionState)
    key o d sd ed ints b ts :
  In (call_generate_trip_plan key o d sd ed ints b ts)
     (effects (on_generate_button c w s)) ->
  key <> "" /\ o <> "" /\ d <> "" /\ ints <> [].
Proof.
  destruct (inputs_missing w) eqn:M.
  - destruct (on_generate_button_rejects c w s M) as (msg & ->).
    intros [F|[]]. discriminate F.
  - rewrite on_generate_button_runs by exact M. cbv zeta.
    assert (V : openai_api_key w <> "" /\ origin w <> "" /\
                destination w <> "" /\ interests w <> []).
    { rewrite <- not_true_iff_false, inputs_missing_spec in M. tauto. }
    destruct (generate_trip_plan _ _ _ _ _ _ _ _ _); simpl;
      intuition (try discriminate; try congruence).
Qed.

End Session.

(* ================================================================== *)
(** * The session after a generation                                   *)
(* ================================================================== *)

Section AfterGeneration.

Import PyStr PyDate Py Crewai App Scenario.

(** C10, on a collaborator whose run returns the empty text: the
    generation completes, the flag is reset, and the plan held by the
    session is the empty text. *)
Lemma empty_plan_is_stored :
  generate_trip_plan (replying "") (openai_api_key new_york_paris)
    (origin new_york_paris) (destination new_york_paris)
    (start_date new_york_paris) (end_date new_york_paris)
    (interests new_york_paris) (budget new_york_paris)
    (travel_style new_york_paris) = Return "" /\
  on_generate_button (replying "") new_york_paris initial_session
  = mkHandled (mkSession (Some "") false)
      [ st_status "🤖 AI Agents are planning your trip...";
        st_write "🔍 City Expert is researching your destination...";
        st_write "📝 Itinerary Planner is creating your schedule...";
        st_write "⚡ Using OpenAI models...";
        call_generate_trip_plan "sk-test" "New York" "Paris"
          (mkDate 2025 6 1) (mkDate 2025 6 5) ["Food & Dining"]
          "Moderate" "Balanced";
        status_update "✅ Trip plan generated successfully!" ]
      None.
Proof. split; reflexivity. Qed.

(** C10, as the code has it.  When the handler runs a generation and the
    call of the core returns a text, the session ends with the flag reset
    and that text as its plan, and nothing escapes the handler.  An
    exception of class [Exception] raised in the generation is such a
    case: the text is then the error text, which is not empty. *)
Theorem on_generate_button_completes
    (c : Collaborator) (w : Widgets) (s : SessionState) :
  inputs_missing w = false ->
  let result :=
    generate_trip_plan c (openai_api_key w) (origin w) (destination w)
      (start_date w) (end_date w) (interests w) (budget w)
      (travel_style w) in
  let body :=
    generate_trip_plan_body c (openai_api_key w) (origin w)
      (destination w) (start_date w) (end_date w) (interests w)
      (budget w) (travel_style w) in
  let h := on_generate_button c w s in
  (forall text, result = Return text ->
     generating (session h) = false /\
     trip_plan (session h) = Some text /\
     escaped h = None) /\
  (forall e, body = Raise e -> is_Exception e = true ->
     result = Return (error_text e) /\
     error_text e <> "" /\
     generating (session h) = false /\
     trip_plan (session h) = Some (error_text e) /\
     escaped h = None).
Proof.
  intros M. cbv zeta.
  assert (S := on_generate_button_session c w s M).
  split.
  - intros text E. rewrite E in S. destruct S as (-> & ->).
    repeat split.
  - intros e B X.
    assert (E := generate_trip_plan_on_error _ _ _ _ _ _ _ _ _ _ B X).
    rewrite E in S. destruct S as (-> & ->).
    split; [exact E|]. split; [apply error_text_not_empty|].
    repeat split.
Qed.

Lemma on_generate_button_completes_witness :
  inputs_missing new_york_paris = false /\
  generating (session (on_generate_button (failing rate_limit)
                         new_york_paris initial_session)) = false /\
  trip_plan (session (on_generate_button (failing rate_limit)
                        new_york_paris initial_session))
    = Some (error_text rate_limit).
Proof.
  split; [reflexivity|].
  destruct (on_generate_button_completes (failing rate_limit)
              new_york_paris initial_session eq_refl) as (_ & H).
  destruct (H rate_limit eq_refl eq_refl) as (_ & _ & G & T & _).
  split; [exact G | exact T].
Defined.

(** What is raised past the core is raised past the handler, after the
    flag was set: the session keeps [generating = True]. *)
Lemma on_generate_button_escape (c : Collaborator) (w : Widgets)
    (s : SessionState) (e : exc) :
  inputs_missing w = false ->
  generate_trip_plan c (openai_api_key w) (origin w) (destination w)
    (start_date w) (end_date w) (interests w) (budget w)
    (travel_style w) = Raise e ->
  is_Exception e = false /\
  session (on_generate_button c w s) = beginGeneration s /\
  escaped (on_generate_button c w s) = Some e.
Proof.
  intros M R.
  assert (S := on_generate_button_session c w s M).
  rewrite R in S. destruct S as (-> & ->).
  apply generate_trip_plan_on_raise in R. tauto.
Qed.

Example interrupted_generation :
  on_generate_button (failing KeyboardInterrupt) new_york_paris
    initial_session
  = mkHandled (mkSession None true)
      [ st_status "🤖 AI Agents are planning your trip...";
        st_write "🔍 City Expert is researching your destination...";
        st_write "📝 Itinerary Planner is creating your schedule...";
        st_write "⚡ Using OpenAI models...";
        call_generate_trip_plan "sk-test" "New York" "Paris"
          (mkDate 2025 6 1) (mkDate 2025 6 5) ["Food & Dining"]
          "Moderate" "Balanced" ]
      (Some KeyboardInterrupt).
Proof. reflexivity. Qed.

End AfterGeneration.

(* ================================================================== *)
(** * More on the two prompts                                          *)
(* ================================================================== *)

Section PromptTexts.

Import PyStr PyDate Py Crewai App Scenario.

Lemma Contains_head2 (a b r : string) : Contains (a ++ b ++ r) (a ++ b).
Proof. rewrite <- app_assoc_str. apply Contains_head. Qed.

Lemma Contains_head3 (a b c r : string) :
  Contains (a ++ b ++ c ++ r) (a ++ b ++ c).
Proof. rewrite <- !app_assoc_str. apply Contains_head. Qed.

Lemma Contains_head4 (a b c d r : string) :
  Contains (a ++ b ++ c ++ d ++ r) (a ++ b ++ c ++ d).
Proof. rewrite <- !app_assoc_str. apply Contains_head. Qed.

Lemma Contains_head5 (a b c d e r : string) :
  Contains (a ++ b ++ c ++ d ++ e ++ r) (a ++ b ++ c ++ d ++ e).
Proof. rewrite <- !app_assoc_str. apply Contains_head. Qed.

(** Finds a needle made of up to four consecutive pieces. *)
Ltac find_pieces :=
  solve [ apply Contains_refl
        | apply Contains_head
        | apply Contains_head2
        | apply Contains_head3
        | apply Contains_head4
        | apply Contains_head5
        | apply Contains_app_r; find_pieces ].

(** Where a text ends. *)
Lemma ends_with_app (a b x : string) :
  (exists pre, b = pre ++ x) -> exists pre, a ++ b = pre ++ x.
Proof.
  intros (pre & ->). exists (a ++ pre). now rewrite app_assoc_str.
Qed.

Lemma ends_with_refl (x : string) : exists pre, x = pre ++ x.
Proof. exists "". reflexivity. Qed.

(** X1.  Whatever the request, the description of the research task
    names the destination, lists every interest, and asks for the given
    budget and travel style; the task is bound to the first agent and
    expects city information. *)
Theorem research_description_contents
    (city_expert itinerary_planner : Agent)
    (o d : string) (sd ed : date) (ints : list string) (b ts : string) :
  exists research_task itinerary_task,
    create_tasks city_expert itinerary_planner o d sd ed ints b ts
      = [research_task; itinerary_task] /\
    Contains (description research_task) ("Research " ++ d) /\
    (forall label, In label ints ->
       Contains (description research_task) label) /\
    Contains (description research_task)
      ("Focus on " ++ b ++ " budget options and " ++ ts ++
       " travel style.") /\
    agent research_task = city_expert.
Proof.
  do 2 eexists. split; [reflexivity|]. cbn [description agent].
  unfold research_description.
  split; [find_pieces|]. split; [|split; [|reflexivity]].
  - intros label Hin.
    eapply Contains_trans; [|apply join_Contains, Hin].
    unfold interests_str. find_pieces.
  - find_pieces.
Qed.

(** X2.  Whatever the request, the description of the itinerary task
    holds the route from origin to destination, the dates line, the
    budget line and the travel style line, each with the text of the
    request as it was typed, and ends with the fixed instructions. *)
Theorem itinerary_description_layout
    (city_expert itinerary_planner : Agent)
    (o d : string) (sd ed : date) (ints : list string) (b ts : string) :
  exists research_task itinerary_task,
    create_tasks city_expert itinerary_planner o d sd ed ints b ts
      = [research_task; itinerary_task] /\
    Contains (description itinerary_task) (o ++ " to " ++ d ++ ".") /\
    Contains (description itinerary_task)
      ("- Dates: " ++ strftime_B_d_Y sd ++ " to " ++ strftime_B_d_Y ed) /\
    Contains (description itinerary_task)
      ("- Interests: " ++ interests_str ints ++ nl) /\
    Contains (description itinerary_task) ("- Budget: " ++ b ++ nl) /\
    Contains (description itinerary_task)
      ("- Travel style: " ++ ts ++ nl) /\
    (exists pre,
       description itinerary_task = pre ++ itinerary_instructions) /\
    agent itinerary_task = itinerary_planner.
Proof.
  do 2 eexists. split; [reflexivity|]. cbn [description agent].
  unfold itinerary_description.
  repeat match goal with
  | |- _ /\ _ => split
  | |- Contains _ _ => find_pieces
  end; [|reflexivity].
  repeat first [ apply ends_with_refl | apply ends_with_app ].
Qed.

End PromptTexts.

(* ================================================================== *)
(** * More on the plan generator                                       *)
(* ================================================================== *)

Section PlanGeneratorMore.

Import PyStr PyDate Py Crewai App Scenario.

Lemma length_app_str (a b : string) :
  String.length (a ++ b) = (String.length a + String.length b)%nat.
Proof.
  induction a as [|ch a IH]; simpl; [reflexivity | now rewrite IH].
Qed.

Lemma app_inv_head_str (p a b : string) : p ++ a = p ++ b -> a = b.
Proof.
  induction p as [|ch p IH]; simpl; intros H; [exact H|].
  injection H as H. exact (IH H).
Qed.

Lemma app_inv_tail_str (s a b : string) : a ++ s = b ++ s -> a = b.
Proof.
  revert b. induction a as [|ch a IH]; intros [|ch' b] H; simpl in H.
  - reflexivity.
  - apply (f_equal String.length) in H. simpl in H.
    rewrite length_app_str in H. lia.
  - apply (f_equal String.length) in H. simpl in H.
    rewrite length_app_str in H. lia.
  - injection H as -> H. f_equal. exact (IH _ H).
Qed.

(** X3.  When the model handle is built, the generation runs one crew:
    its two agents are the city expert and the itinerary planner, both on
    that one handle and neither allowed to delegate; its two tasks are
    bound to these agents in the same order; the second task has the
    first as its context. *)
Theorem generate_trip_plan_crew
    (c : Collaborator) (key o d : string) (sd ed : date)
    (ints : list string) (b ts : string) (handle : LLM) :
  OpenAI c "gpt-4o-mini" key = Return handle ->
  exists crew research_task itinerary_task,
    generate_trip_plan_body c key o d sd ed ints b ts = kickoff c crew /\
    map role (agents crew)
      = ["City Information Expert"; "Itinerary Planner"] /\
    map llm (agents crew) = [handle; handle] /\
    map allow_delegation (agents crew) = [false; false] /\
    tasks crew = [research_task; itinerary_task] /\
    map agent (tasks crew) = agents crew /\
    context research_task = None /\
    context itinerary_task = Some [research_task] /\
    description itinerary_task
      = itinerary_description o d sd ed ints b ts.
Proof.
  intros H. unfold generate_trip_plan_body, create_agents.
  rewrite H. cbn [bind]. do 3 eexists. split; [reflexivity|].
  repeat split.
Qed.

Lemma generate_trip_plan_crew_witness :
  OpenAI (replying "plan") "gpt-4o-mini" "sk-test"
    = Return (mkLLM "gpt-4o-mini" "sk-test") /\
  exists crew,
    generate_trip_plan_body (replying "plan") "sk-test" "New York"
      "Paris" (mkDate 2025 6 1) (mkDate 2025 6 5) ["Food & Dining"]
      "Moderate" "Balanced" = kickoff (replying "plan") crew /\
    map llm (agents crew)
      = [mkLLM "gpt-4o-mini" "sk-test"; mkLLM "gpt-4o-mini" "sk-test"] /\
    map agent (tasks crew) = agents crew.
Proof.
  split; [reflexivity|].
  destruct (generate_trip_plan_crew (replying "plan") "sk-test"
              "New York" "Paris" (mkDate 2025 6 1) (mkDate 2025 6 5)
              ["Food & Dining"] "Moderate" "Balanced"
              (mkLLM "gpt-4o-mini" "sk-test") eq_refl)
    as (crew & r & i & B & _ & L & _ & _ & A & _).
  exists crew. split; [exact B|]. split; [exact L | exact A].
Defined.

(** X4.  When building the model handle raises, no crew is run: the
    result of the generation does not depend on what running a crew
    would do, and it is the error raised by the constructor, turned into
    text if it is of class [Exception] and raised further otherwise. *)
Theorem generate_trip_plan_without_handle
    (c : Collaborator) (key o d : string) (sd ed : date)
    (ints : list string) (b ts : string) (e : exc) :
  OpenAI c "gpt-4o-mini" key = Raise e ->
  (forall run : Crew -> outcome string,
     generate_trip_plan (mkCollaborator (OpenAI c) run)
       key o d sd ed ints b ts
     = generate_trip_plan c key o d sd ed ints b ts) /\
  generate_trip_plan c key o d sd ed ints b ts
    = if is_Exception e then Return (error_text e) else Raise e.
Proof.
  intros H.
  assert (G : forall run,
    generate_trip_plan (mkCollaborator (OpenAI c) run)
      key o d sd ed ints b ts
    = if is_Exception e then Return (error_text e) else Raise e).
  { intros run.
    unfold generate_trip_plan, generate_trip_plan_body, create_agents.
    cbn [OpenAI]. rewrite H. reflexivity. }
  split.
  - intros run. rewrite G. destruct c as [mk run0]. cbn [OpenAI] in *.
    symmetry. apply G.
  - destruct c as [mk run0]. cbn [OpenAI] in *. apply G.
Qed.

Lemma generate_trip_plan_without_handle_witness :
  OpenAI (mkCollaborator (fun _ _ => Raise (mkExc true "bad key"))
                         (fun _ => Return "plan"))
    "gpt-4o-mini" "sk-test" = Raise (mkExc true "bad key") /\
  generate_trip_plan
    (mkCollaborator (fun _ _ => Raise (mkExc true "bad key"))
                    (fun _ => Return "plan"))
    "sk-test" "New York" "Paris" (mkDate 2025 6 1) (mkDate 2025 6 5)
    ["Food & Dining"] "Moderate" "Balanced"
  = Return (error_text (mkExc true "bad key")).
Proof.
  split; [reflexivity|].
  exact (proj2 (generate_trip_plan_without_handle
                  (mkCollaborator
                     (fun _ _ => Raise (mkExc true "bad key"))
                     (fun _ => Return "plan"))
                  "sk-test" "New York" "Paris" (mkDate 2025 6 1)
                  (mkDate 2025 6 5) ["Food & Dining"] "Moderate"
                  "Balanced" (mkExc true "bad key") eq_refl)).
Defined.

(** X5.  The caller cannot tell a failed generation from a successful
    one: for every failure of class [Exception] there is a collaborator
    that succeeds and makes the generation return the very same value. *)
Theorem generate_trip_plan_failure_looks_like_success
    (c : Collaborator) (key o d : string) (sd ed : date)
    (ints : list string) (b ts : string) (e : exc) :
  generate_trip_plan_body c key o d sd ed ints b ts = Raise e ->
  is_Exception e = true ->
  exists c' text,
    generate_trip_plan_body c' key o d sd ed ints b ts = Return text /\
    generate_trip_plan c' key o d sd ed ints b ts
      = generate_trip_plan c key o d sd ed ints b ts.
Proof.
  intros B X. exists (replying (error_text e)), (error_text e).
  split; [reflexivity|].
  rewrite (generate_trip_plan_on_error _ _ _ _ _ _ _ _ _ _ B X).
  reflexivity.
Qed.

Lemma generate_trip_plan_failure_looks_like_success_witness :
  exists c' text,
    generate_trip_plan_body c' "sk-test" "New York" "Paris"
      (mkDate 2025 6 1) (mkDate 2025 6 5) ["Food & Dining"]
      "Moderate" "Balanced" = Return text /\
    generate_trip_plan c' "sk-test" "New York" "Paris"
      (mkDate 2025 6 1) (mkDate 2025 6 5) ["Food & Dining"]
      "Moderate" "Balanced"
    = generate_trip_plan (failing rate_limit) "sk-test" "New York"
        "Paris" (mkDate 2025 6 1) (mkDate 2025 6 5) ["Food & Dining"]
        "Moderate" "Balanced".
Proof.
  exact (generate_trip_plan_failure_looks_like_success
           (failing rate_limit) "sk-test" "New York" "Paris"
           (mkDate 2025 6 1) (mkDate 2025 6 5) ["Food & Dining"]
           "Moderate" "Balanced" rate_limit eq_refl eq_refl).
Defined.

(** X6.  The message of the error can be read back from the text the
    generation returns for it: two errors give the same text exactly
    when they have the same message. *)
Theorem error_text_keeps_message (e1 e2 : exc) :
  error_text e1 = error_text e2 <-> str_exc e1 = str_exc e2.
Proof.
  unfold error_text. split.
  - intros H. apply app_inv_head_str in H.
    eapply app_inv_tail_str. exact H.
  - intros ->. reflexivity.
Qed.

End PlanGeneratorMore.

(* ================================================================== *)
(** * The generate button, seen from the caller                        *)
(* ================================================================== *)

Section GenerateButtonMore.

Import PyStr PyDate Py Crewai App Scenario Page.

(** X7.  The key from the environment wins over the key typed in the
    sidebar: a key is missing only when both are empty, the typed key is
    used when the environment has none, and when the environment has one,
    what is typed changes nothing of what the generate button does. *)
Theorem env_key_overrides_typed_key
    (c : Collaborator) (w : Widgets) (s : SessionState) :
  (openai_api_key w = "" <-> env_key w = "" /\ key_input w = "") /\
  (env_key w = "" -> openai_api_key w = key_input w) /\
  (env_key w <> "" ->
   forall typed,
     on_generate_button c
       (mkWidgets (env_key w) typed (origin w) (destination w)
          (start_date w) (end_date w) (interests w) (budget w)
          (travel_style w)) s
     = on_generate_button c w s).
Proof.
  destruct w as [ek ki o d sd ed ints b ts].
  unfold openai_api_key, or_str; cbn [env_key key_input].
  split; [|split].
  - destruct ek; simpl; [tauto|].
    split; [discriminate | intros (E & _); discriminate E].
  - intros ->. reflexivity.
  - intros NE typed. destruct ek; [now destruct NE|]. reflexivity.
Qed.

(** X8.  One press of the generate button calls the core exactly once
    when every required input is present and not at all otherwise,
    whatever the collaborator does. *)
Theorem on_generate_button_core_calls
    (c : Collaborator) (w : Widgets) (s : SessionState) :
  core_calls (effects (on_generate_button c w s))
  = if inputs_missing w then 0%nat else 1%nat.
Proof.
  destruct (inputs_missing w) eqn:M.
  - destruct (on_generate_button_rejects c w s M) as (msg & ->).
    reflexivity.
  - rewrite on_generate_button_runs by exact M. cbv zeta.
    destruct (generate_trip_plan _ _ _ _ _ _ _ _ _); reflexivity.
Qed.

(** X9.  A completed generation overwrites the session: the session it
    leaves holds the returned text and a reset flag, and nothing of the
    session it started from. *)
Theorem completed_generation_overwrites
    (c : Collaborator) (w : Widgets) (s1 s2 : SessionState)
    (text : string) :
  inputs_missing w = false ->
  generate_trip_plan c (openai_api_key w) (origin w) (destination w)
    (start_date w) (end_date w) (interests w) (budget w)
    (travel_style w) = Return text ->
  session (on_generate_button c w s1) = mkSession (Some text) false /\
  session (on_generate_button c w s2) = session (on_generate_button c w s1).
Proof.
  intros M R.
  assert (S1 := on_generate_button_session c w s1 M).
  assert (S2 := on_generate_button_session c w s2 M).
  rewrite R in S1, S2. destruct S1 as (-> & _), S2 as (-> & _).
  split; reflexivity.
Qed.

Lemma completed_generation_overwrites_witness :
  inputs_missing new_york_paris = false /\
  session (on_generate_button (replying "new plan") new_york_paris
             (mkSession (Some "old plan") true))
    = mkSession (Some "new plan") false /\
  session (on_generate_button (replying "new plan") new_york_paris
             initial_session)
    = session (on_generate_button (replying "new plan") new_york_paris
                 (mkSession (Some "old plan") true)).
Proof.
  split; [reflexivity|].
  exact (completed_generation_overwrites (replying "new plan")
           new_york_paris (mkSession (Some "old plan") true)
           initial_session "new plan" eq_refl eq_refl).
Defined.

End GenerateButtonMore.

(* ================================================================== *)
(** * Runs of the script                                               *)
(* ================================================================== *)

Section ScriptRuns.

Import PyStr PyDate Py Crewai App Scenario Page.

Variable lower : string -> string.

Lemma display_results_falsy (w : Widgets) (s : SessionState) :
  (trip_plan s = None \/ trip_plan s = Some "") ->
  display_results lower w s = [].
Proof.
  unfold display_results. intros [-> | ->]; reflexivity.
Qed.

Lemma truthy_error_text (e : exc) : truthy (error_text e) = true.
Proof. reflexivity. Qed.

(** A run that no exception stops leaves the flag reset if it found it
    reset. *)
Lemma script_run_keeps_flag_reset (c : Collaborator) (w : Widgets)
    (p : press) (s : SessionState) :
  generating s = false ->
  uncaught (script_run lower c w p s) = None ->
  generating (after (script_run lower c w p s)) = false.
Proof.
  intros G U. destruct p; cbn [script_run] in *.
  - exact G.
  - destruct (inputs_missing w) eqn:M.
    + destruct (on_generate_button_rejects c w s M) as (msg & E).
      rewrite E in *. exact G.
    + assert (S := on_generate_button_session c w s M).
      destruct (generate_trip_plan _ _ _ _ _ _ _ _ _) as [text|e];
        destruct S as (S1 & S2); rewrite S2 in *; cbn [after] in *.
      * rewrite S1. reflexivity.
      * discriminate U.
  - unfold on_new_plan_button.
    destruct (trip_plan s) as [plan|]; [|exact G].
    destruct (truthy plan); exact G.
Qed.

(** X10.  Between runs the flag is reset: from a session whose flag is
    reset, any sequence of runs that no exception stopped ends in a
    session whose flag is reset, whatever the buttons pressed, the values
    of the widgets and the behaviour of the collaborator on each run. *)
Theorem generating_reset_between_runs
    (steps : list (Collaborator * Widgets * press)) (s : SessionState) :
  generating s = false ->
  snd (script_runs lower steps s) = [] ->
  generating (fst (script_runs lower steps s)) = false.
Proof.
  revert s. induction steps as [|[[c w] p] rest IH]; intros s G U.
  - exact G.
  - cbn [script_runs] in *.
    destruct (script_runs lower rest (after (script_run lower c w p s)))
      as [final raised] eqn:E.
    cbn [fst snd] in *.
    destruct (uncaught (script_run lower c w p s)) eqn:Un;
      [discriminate U|].
    specialize (IH (after (script_run lower c w p s))).
    rewrite E in IH. apply IH; [|exact U].
    apply script_run_keeps_flag_reset; assumption.
Qed.

(** X11.  A run that is not a press of the generate button with every
    input present stops on no exception, leaves the flag as it was and
    makes no plan: the plan is the one it found or none. *)
Theorem flag_changes_only_on_generation
    (c : Collaborator) (w : Widgets) (p : press) (s : SessionState) :
  p <> press_generate \/ inputs_missing w = true ->
  uncaught (script_run lower c w p s) = None /\
  generating (after (script_run lower c w p s)) = generating s /\
  (trip_plan (after (script_run lower c w p s)) = trip_plan s \/
   trip_plan (after (script_run lower c w p s)) = None).
Proof.
  intros H. destruct p; cbn [script_run].
  - auto.
  - destruct H as [H|M]; [now destruct H|].
    destruct (on_generate_button_rejects c w s M) as (msg & ->).
    cbn. auto.
  - unfold on_new_plan_button.
    destruct (trip_plan s) as [plan|] eqn:T; [|cbn; auto].
    destruct (truthy plan); cbn; auto.
Qed.

(** X12.  An error of class [Exception] in the generation is shown as a
    plan: the run is not stopped, the results block announces a plan
    that is ready, shows the error text in its place and offers it for
    download. *)
Theorem error_is_displayed_as_plan
    (c : Collaborator) (w : Widgets) (s : SessionState) (e : exc) :
  inputs_missing w = false ->
  generate_trip_plan_body c (openai_api_key w) (origin w)
    (destination w) (start_date w) (end_date w) (interests w)
    (budget w) (travel_style w) = Raise e ->
  is_Exception e = true ->
  uncaught (script_run lower c w press_generate s) = None /\
  In (ui_success "✅ Your personalized trip plan is ready!")
     (results (script_run lower c w press_generate s)) /\
  In (ui_markdown (error_text e))
     (results (script_run lower c w press_generate s)) /\
  In (ui_download_button "📥 Download Plan" (error_text e)
        (file_name lower (destination w) (start_date w)) "text/plain")
     (results (script_run lower c w press_generate s)).
Proof.
  intros M B X.
  assert (R := generate_trip_plan_on_error _ _ _ _ _ _ _ _ _ _ B X).
  assert (S := on_generate_button_session c w s M).
  rewrite R in S. destruct S as (S1 & S2).
  cbn [script_run]. rewrite S2, S1. cbn [uncaught results].
  unfold display_results, completeGeneration. cbn [trip_plan].
  rewrite truthy_error_text.
  split; [reflexivity|]. cbn [In]. repeat split; tauto.
Qed.

(** X13.  A generation that returns the empty text completes and shows
    nothing: the session holds the empty text, the results block is not
    drawn, and the new-plan button is not on the page. *)
Theorem empty_plan_shows_nothing
    (c : Collaborator) (w : Widgets) (s : SessionState) :
  inputs_missing w = false ->
  generate_trip_plan c (openai_api_key w) (origin w) (destination w)
    (start_date w) (end_date w) (interests w) (budget w)
    (travel_style w) = Return "" ->
  script_run lower c w press_generate s
    = mkRun (mkSession (Some "") false) [] None /\
  on_new_plan_button (after (script_run lower c w press_generate s))
    = None.
Proof.
  intros M R.
  assert (S := on_generate_button_session c w s M).
  rewrite R in S. destruct S as (S1 & S2).
  cbn [script_run]. rewrite S2, S1. split; reflexivity.
Qed.

(** X14.  After a press of the new-plan button the results block is
    gone and stays gone on the following runs without a press, and the
    flag is as it was. *)
Theorem new_plan_empties_results
    (c c' : Collaborator) (w w' : Widgets) (s : SessionState) :
  results (script_run lower c w press_new_plan s) = [] /\
  results (script_run lower c' w' no_press
             (after (script_run lower c w press_new_plan s))) = [] /\
  generating (after (script_run lower c w press_new_plan s))
    = generating s.
Proof.
  cbn [script_run]. unfold on_new_plan_button.
  destruct s as [[plan|] flag]; cbn [trip_plan].
  - destruct plan; cbn; auto.
  - cbn. auto.
Qed.

(** X15.  A press of the generate button with a required input missing
    leaves the session and the results block exactly as a run without
    any press does: a plan that was shown stays shown. *)
Theorem rejected_press_keeps_results
    (c : Collaborator) (w : Widgets) (s : SessionState) :
  inputs_missing w = true ->
  script_run lower c w press_generate s = script_run lower c w no_press s.
Proof.
  intros M. cbn [script_run].
  destruct (on_generate_button_rejects c w s M) as (msg & ->).
  reflexivity.
Qed.

End ScriptRuns.

(* ================================================================== *)
(** * Runs of the script on concrete sessions                          *)
(* ================================================================== *)

Section ScriptRunCases.

Import PyStr PyDate Py Crewai App Scenario Page.

Lemma generating_reset_between_runs_witness :
  generating initial_session = false /\
  snd (script_runs lower_ascii
         [ (replying "plan", new_york_paris, press_generate);
           (failing rate_limit, new_york_paris, press_generate);
           (replying "plan", no_interests, press_generate);
           (replying "plan", new_york_paris, press_new_plan) ]
         initial_session) = [] /\
  generating
    (fst (script_runs lower_ascii
            [ (replying "plan", new_york_paris, press_generate);
              (failing rate_limit, new_york_paris, press_generate);
              (replying "plan", no_interests, press_generate);
              (replying "plan", new_york_paris, press_new_plan) ]
            initial_session)) = false.
Proof.
  split; [reflexivity|]. split; [reflexivity|].
  exact (generating_reset_between_runs lower_ascii
           [ (replying "plan", new_york_paris, press_generate);
             (failing rate_limit, new_york_paris, press_generate);
             (replying "plan", no_interests, press_generate);
             (replying "plan", new_york_paris, press_new_plan) ]
           initial_session eq_refl eq_refl).
Defined.

(** A run stopped by an interrupt leaves the flag set, and the runs that
    follow without a generation do not reset it. *)
Example interrupted_session_keeps_flag :
  script_runs lower_ascii
    [ (failing KeyboardInterrupt, new_york_paris, press_generate);
      (replying "plan", new_york_paris, no_press);
      (replying "plan", no_interests, press_generate) ]
    initial_session
  = (mkSession None true, [KeyboardInterrupt]).
Proof. reflexivity. Qed.

Lemma flag_changes_only_on_generation_witness :
  (press_generate <> press_generate \/ inputs_missing no_interests = true)
  /\
  uncaught (script_run lower_ascii (replying "plan") no_interests
              press_generate (mkSession (Some "old plan") false)) = None
  /\
  trip_plan (after (script_run lower_ascii (replying "plan") no_interests
                      press_generate (mkSession (Some "old plan") false)))
    = Some "old plan".
Proof.
  assert (H : press_generate <> press_generate \/
              inputs_missing no_interests = true)
    by (right; reflexivity).
  split; [exact H|].
  split.
  - exact (proj1 (flag_changes_only_on_generation lower_ascii
                    (replying "plan") no_interests press_generate
                    (mkSession (Some "old plan") false) H)).
  - reflexivity.
Defined.

Lemma error_is_displayed_as_plan_witness :
  inputs_missing new_york_paris = false /\
  In (ui_markdown (error_text rate_limit))
     (results (script_run lower_ascii (failing rate_limit)
                 new_york_paris press_generate initial_session)) /\
  In (ui_success "✅ Your personalized trip plan is ready!")
     (results (script_run lower_ascii (failing rate_limit)
                 new_york_paris press_generate initial_session)).
Proof.
  split; [reflexivity|].
  destruct (error_is_displayed_as_plan lower_ascii (failing rate_limit)
              new_york_paris initial_session rate_limit
              eq_refl eq_refl eq_refl) as (_ & B & P & _).
  split; [exact P | exact B].
Defined.

Lemma empty_plan_shows_nothing_witness :
  inputs_missing new_york_paris = false /\
  script_run lower_ascii (replying "") new_york_paris press_generate
    initial_session
  = mkRun (mkSession (Some "") false) [] None.
Proof.
  split; [reflexivity|].
  exact (proj1 (empty_plan_shows_nothing lower_ascii (replying "")
                  new_york_paris initial_session eq_refl eq_refl)).
Defined.

Lemma rejected_press_keeps_results_witness :
  inputs_missing no_interests = true /\
  script_run lower_ascii (replying "plan") no_interests press_generate
    (mkSession (Some "old plan") false)
  = script_run lower_ascii (replying "plan") no_interests no_press
      (mkSession (Some "old plan") false).
Proof.
  split; [reflexivity|].
  exact (rejected_press_keeps_results lower_ascii (replying "plan")
           no_interests (mkSession (Some "old plan") false) eq_refl).
Defined.

End ScriptRunCases.

(* ================================================================== *)
(** * The results block                                                *)
(* ================================================================== *)

Section ResultsBlock.

Import PyStr PyDate Py Crewai App Scenario Page.

Variable lower : string -> string.

Lemma chars_app (a b : string) :
  list_ascii_of_string (a ++ b)
  = (list_ascii_of_string a ++ list_ascii_of_string b)%list.
Proof.
  induction a as [|ch a IH]; simpl; [reflexivity | now rewrite IH].
Qed.

Lemma Contains_char (s : string) (ch : ascii) :
  Contains s (String ch "") -> In ch (list_ascii_of_string s).
Proof.
  intros (pre & post & ->). rewrite !chars_app.
  apply in_or_app. right. simpl. left. reflexivity.
Qed.

Lemma digits_no_space (d : Decimal.uint) :
  ~ In " "%char (list_ascii_of_string (NilEmpty.string_of_uint d)).
Proof.
  induction d; simpl; try tauto; intros [H|H]; (discriminate H || auto).
Qed.

Lemma digits_or_zero_no_space (d : Decimal.uint) :
  ~ In " "%char (list_ascii_of_string (NilZero.string_of_uint d)).
Proof.
  destruct d; try apply digits_no_space.
  simpl. intros [H|[]]. discriminate H.
Qed.

Lemma str_int_no_space (n : Z) :
  ~ In " "%char (list_ascii_of_string (str_int n)).
Proof.
  unfold str_int, NilZero.string_of_int.
  destruct (Z.to_int n) as [d|d].
  - apply digits_or_zero_no_space.
  - cbn [list_ascii_of_string]. intros [H|H]; [discriminate H|].
    exact (digits_or_zero_no_space d H).
Qed.

Lemma zeros_no_space (k : nat) : ~ In " "%char (list_ascii_of_string (zeros k)).
Proof.
  induction k as [|k IH]; simpl; intros H; [exact H|].
  destruct H as [H|H]; [discriminate H | exact (IH H)].
Qed.

Lemma zero_pad_no_space (width : nat) (n : Z) :
  ~ In " "%char (list_ascii_of_string (zero_pad width n)).
Proof.
  unfold zero_pad. rewrite chars_app. intros H.
  apply in_app_or in H as [H|H].
  - exact (zeros_no_space _ H).
  - exact (str_int_no_space _ H).
Qed.

Lemma replace_char_removes (old new : ascii) (s : string) :
  old <> new -> ~ In old (list_ascii_of_string (replace_char old new s)).
Proof.
  intros NE. induction s as [|ch s IH]; simpl; [tauto|].
  intros [H|H]; [|exact (IH H)].
  destruct (Ascii.eqb_spec ch old) as [E|N]; congruence.
Qed.

Lemma replace_char_length (old new : ascii) (s : string) :
  String.length (replace_char old new s) = String.length s.
Proof.
  induction s as [|ch s IH]; simpl; [reflexivity | now rewrite IH].
Qed.

(** The name of the downloaded file: [trip_plan_], the destination with
    every space turned into an underscore, the start date, [.txt]; no
    space is left in it, whatever the destination. *)
Lemma file_name_shape (destination : string) (d : date) :
  (exists stem,
     file_name lower destination d = "trip_plan_" ++ stem ++ ".txt") /\
  ~ Contains (file_name lower destination d) " ".
Proof.
  split.
  - unfold file_name. eexists.
    apply f_equal. rewrite <- !app_assoc_str. reflexivity.
  - intros H. apply Contains_char in H. revert H.
    unfold file_name, strftime_Ymd. rewrite !chars_app.
    intros H.
    repeat (apply in_app_or in H as [H|H]);
      try (simpl in H; intuition discriminate).
    + revert H. apply replace_char_removes. discriminate.
    + exact (zero_pad_no_space _ _ H).
    + exact (zero_pad_no_space _ _ H).
    + exact (zero_pad_no_space _ _ H).
Qed.

(** X16.  Whenever the download button is on the page, what it offers
    is the plan the session holds, which is not empty and is the text
    shown above it, as plain text, under a file name that starts with
    [trip_plan_], ends with [.txt] and has no space in it. *)
Theorem download_button_offer
    (w : Widgets) (s : SessionState) (label data name mime : string) :
  In (ui_download_button label data name mime)
     (display_results lower w s) ->
  trip_plan s = Some data /\ data <> "" /\
  In (ui_markdown data) (display_results lower w s) /\
  mime = "text/plain" /\
  name = file_name lower (destination w) (start_date w) /\
  (exists stem, name = "trip_plan_" ++ stem ++ ".txt") /\
  ~ Contains name " ".
Proof.
  unfold display_results.
  destruct (trip_plan s) as [plan|]; [|intros []].
  destruct plan as [|ch plan]; [intros []|]. cbn [truthy].
  intros H. cbn [In] in H.
  repeat (destruct H as [H|H]; try discriminate H); [|destruct H].
  injection H as _ <- <- <-.
  split; [reflexivity|]. split; [discriminate|].
  split; [cbn [In]; tauto|]. split; [reflexivity|].
  split; [reflexivity|]. apply file_name_shape.
Qed.

(** X17.  The summary and the file name follow the widgets of the run
    that draws them, not the request the plan was generated from: after a
    generation on one form, a run on another form shows the same plan
    under the route, the duration and the file name of the other form. *)
Theorem summary_follows_current_widgets
    (c c' : Collaborator) (w w' : Widgets) (s : SessionState)
    (text : string) :
  inputs_missing w = false ->
  generate_trip_plan c (openai_api_key w) (origin w) (destination w)
    (start_date w) (end_date w) (interests w) (budget w)
    (travel_style w) = Return text ->
  text <> "" ->
  let later :=
    results (script_run lower c' w' no_press
               (after (script_run lower c w press_generate s))) in
  In (ui_markdown text) later /\
  In (ui_metric "Route" (origin w' ++ " → " ++ destination w')) later /\
  In (ui_metric "Duration"
        (str_int (duration (start_date w') (end_date w')) ++ " days"))
     later /\
  In (ui_download_button "📥 Download Plan" text
        (file_name lower (destination w') (start_date w')) "text/plain")
     later.
Proof.
  intros M R NE later. subst later.
  assert (S := on_generate_button_session c w s M).
  rewrite R in S. destruct S as (S1 & S2).
  cbn [script_run]. rewrite S2, S1. cbn [after results].
  unfold display_results, completeGeneration. cbn [trip_plan].
  destruct text as [|ch text]; [now destruct NE|]. cbn [truthy In].
  repeat split; tauto.
Qed.

End ResultsBlock.

(* ================================================================== *)
(** * The results block and the duration on concrete values            *)
(* ================================================================== *)

Section ResultsBlockCases.

Import PyStr PyDate Py Crewai App Scenario Page.

Example file_name_samples :
  file_name lower_ascii "New York" (mkDate 2025 6 1)
    = "trip_plan_new_york_20250601.txt" /\
  file_name lower_ascii "Rio de Janeiro" (mkDate 2025 12 24)
    = "trip_plan_rio_de_janeiro_20251224.txt" /\
  file_name lower_ascii "" (mkDate 2025 6 1) = "trip_plan__20250601.txt".
Proof. repeat split. Qed.

Lemma download_button_offer_witness :
  In (ui_download_button "📥 Download Plan" "plan"
        "trip_plan_paris_20250601.txt" "text/plain")
     (display_results lower_ascii new_york_paris
        (mkSession (Some "plan") false)) /\
  ~ Contains "trip_plan_paris_20250601.txt" " ".
Proof.
  assert (H : In (ui_download_button "📥 Download Plan" "plan"
                    "trip_plan_paris_20250601.txt" "text/plain")
                 (display_results lower_ascii new_york_paris
                    (mkSession (Some "plan") false)))
    by (cbn; tauto).
  split; [exact H|].
  destruct (download_button_offer lower_ascii new_york_paris
              (mkSession (Some "plan") false) _ _ _ _ H)
    as (_ & _ & _ & _ & _ & _ & N).
  exact N.
Defined.

Lemma summary_follows_current_widgets_witness :
  inputs_missing new_york_paris = false /\
  "plan" <> "" /\
  In (ui_metric "Route" "New York → Paris")
     (results (script_run lower_ascii (replying "other") paris_backwards
                 no_press
                 (after (script_run lower_ascii (replying "plan")
                           new_york_paris press_generate
                           initial_session)))) /\
  In (ui_metric "Duration" "-3 days")
     (results (script_run lower_ascii (replying "other") paris_backwards
                 no_press
                 (after (script_run lower_ascii (replying "plan")
                           new_york_paris press_generate
                           initial_session)))).
Proof.
  assert (NE : "plan" <> "") by discriminate.
  split; [reflexivity|]. split; [exact NE|].
  destruct (summary_follows_current_widgets lower_ascii
              (replying "plan") (replying "other") new_york_paris
              paris_backwards initial_session "plan" eq_refl eq_refl NE)
    as (_ & R & D & _).
  split; [exact R | exact D].
Defined.

(** X18.  For two dates, the duration the page and the prompts show is
    at least one day exactly when the end date is not before the start
    date, and it is one day exactly when the two dates are the same. *)
Theorem duration_sign (sd ed : date) :
  valid sd -> valid ed ->
  (1 <= duration sd ed <-> date_le sd ed) /\
  (duration sd ed = 1 <-> sd = ed) /\
  (duration sd ed <= 0 <-> date_lt ed sd).
Proof.
  intros Vs Ve. unfold duration, sub; cbn [days].
  split; [|split]; split; intros H.
  - destruct (date_lt_trichotomy sd ed) as [L|[E|L]].
    + left; exact L.
    + right; exact E.
    + apply toordinal_lt in L; [lia | assumption..].
  - apply toordinal_le in H; [lia | assumption..].
  - apply toordinal_inj; [assumption..|lia].
  - subst. lia.
  - apply toordinal_lt_inv; [assumption..|lia].
  - apply toordinal_lt in H; [lia | assumption..].
Qed.

Lemma duration_sign_witness :
  valid (mkDate 2024 12 31) /\ valid (mkDate 2025 1 1) /\
  (1 <= duration (mkDate 2024 12 31) (mkDate 2025 1 1) <->
   date_le (mkDate 2024 12 31) (mkDate 2025 1 1)) /\
  duration (mkDate 2024 12 31) (mkDate 2025 1 1) = 2.
Proof.
  assert (Vs : valid (mkDate 2024 12 31))
    by (apply validb_spec; reflexivity).
  assert (Ve : valid (mkDate 2025 1 1))
    by (apply validb_spec; reflexivity).
  split; [exact Vs|]. split; [exact Ve|].
  split; [|reflexivity].
  exact (proj1 (duration_sign _ _ Vs Ve)).
Defined.

End ResultsBlockCases.

(* ================================================================== *)
(** * What the page says about the key and about errors                *)
(* ================================================================== *)

Section PageMessages.

Import PyStr PyDate Py Crewai App Scenario Page.

(** X19.  The sidebar and the generate button agree on the key: the
    sidebar shows its warning on exactly the runs on which a press of the
    generate button does nothing but show the missing-key error. *)
Theorem sidebar_warning_matches_key_error
    (c : Collaborator) (w : Widgets) (s : SessionState) :
  sidebar_status w = ui_warning "⚠️ Please enter your OpenAI API key"
  <->
  effects (on_generate_button c w s)
    = [st_error "⚠️ Please enter your OpenAI API key in the sidebar."].
Proof.
  unfold sidebar_status, on_generate_button.
  destruct (truthy (openai_api_key w)); cbn [negb].
  - split; [discriminate|].
    destruct (negb (truthy (origin w)) || negb (truthy (destination w)));
      [discriminate|].
    destruct (negb (truthy_list (interests w))); [discriminate|].
    destruct (generate_trip_plan _ _ _ _ _ _ _ _ _); discriminate.
  - split; reflexivity.
Qed.

(** X20.  An error of class [Exception] in the generation is reported
    as a success: the handler shows no error, and the last thing it does
    is to set the status to the message that the plan was generated
    successfully. *)
Theorem error_reported_as_success
    (c : Collaborator) (w : Widgets) (s : SessionState) (e : exc) :
  inputs_missing w = false ->
  generate_trip_plan_body c (openai_api_key w) (origin w)
    (destination w) (start_date w) (end_date w) (interests w)
    (budget w) (travel_style w) = Raise e ->
  is_Exception e = true ->
  (exists before,
     effects (on_generate_button c w s)
     = (before ++
        [status_update "✅ Trip plan generated successfully!"])%list) /\
  (forall msg, ~ In (st_error msg) (effects (on_generate_button c w s))) /\
  escaped (on_generate_button c w s) = None.
Proof.
  intros M B X.
  assert (R := generate_trip_plan_on_error _ _ _ _ _ _ _ _ _ _ B X).
  rewrite on_generate_button_runs by exact M. cbv zeta. rewrite R.
  cbn [effects escaped]. split; [eexists; reflexivity|].
  split; [|reflexivity].
  intros msg H. cbn in H.
  repeat (destruct H as [H|H]; try discriminate H). exact H.
Qed.

Lemma error_reported_as_success_witness :
  inputs_missing new_york_paris = false /\
  (exists before,
     effects (on_generate_button (failing rate_limit) new_york_paris
                initial_session)
     = (before ++
        [status_update "✅ Trip plan generated successfully!"])%list).
Proof.
  split; [reflexivity|].
  exact (proj1 (error_reported_as_success (failing rate_limit)
                  new_york_paris initial_session rate_limit
                  eq_refl eq_refl eq_refl)).
Defined.

End PageMessages.
